(** * Spectator View Unity plugin: connection supervisor, pose
      synchroniser and render-event pipeline

    Shallow embedding of the plugin's translation unit (the file with
    [ListenForServer], [ListenForData], [GetPose], [OnRenderEvent],
    [ResetSV] and the texture-binding entry points).  The process-wide
    globals of the C++ file become one record, [Globals]; every C++
    function becomes a function on that record.  What the code obtains
    from outside (the TCP socket, the compositor, Direct3D, the host)
    is passed to the function as an argument and written to [trace] in
    program order, so that "no I/O" and "what was sent" can be stated.
    The retry loop started by [create_task] runs beside the host's
    calls: [Process] keeps where each retry task stands and [step]
    lets a task run one statement at a time between them.
    Entry points that write no global ([SetAudioData],
    [GetFrameWidth], [GetFrameHeight], [GetRenderEventFunc]) are left
    out. *)

From Stdlib Require Import ZArith List String Bool Lia.
Import ListNotations.
Open Scope Z_scope.

(** ** Scalar types *)

(** A [float] is carried as its IEEE-754 binary32 bit pattern, so that
    equality is bit-for-bit; pattern [0] is [+0.0f]. *)
Definition float := Z.
Definition LONGLONG := Z.
Definition int := Z.

(** [(LONGLONG)nsPast]: sign extension of an [int] keeps its value. *)
Definition LONGLONG_of_int (n : int) : LONGLONG := n.

(** Raw pointers ([ID3D11Texture2D*], [ID3D11Device*],
    [CompositorInterface*], ...) are addresses; [nullptr] is address 0. *)
Definition pointer := N.
Definition nullptr : pointer := 0%N.
Definition is_null (p : pointer) : bool := N.eqb p nullptr.

Inductive UnityGfxRenderer := kUnityGfxRendererNull | kUnityGfxRendererD3D11.

Inductive UnityGfxDeviceEventType :=
| kUnityGfxDeviceEventInitialize
| kUnityGfxDeviceEventShutdown
| kUnityGfxDeviceEventBeforeReset
| kUnityGfxDeviceEventAfterReset.

Record XMFLOAT3 := mkXMFLOAT3 { f3x : float; f3y : float; f3z : float }.
Record XMFLOAT4 := mkXMFLOAT4 { f4x : float; f4y : float; f4z : float; f4w : float }.

(** ** Wire records (NetworkPacketStructure.h) *)

Module SVPose.
(** Modelled from the spec: the header that declares [SVPose] is not
    among the sources; the fields are those the plugin reads
    ([posX] .. [rotW], [sentTime]) and the spec's RemotePoseRecord
    lists.  A value of this type stands for the object representation
    of the struct, all [sizeof(SVPose)] bytes of it. *)
Record t := mk {
  rotX : float; rotY : float; rotZ : float; rotW : float;
  posX : float; posY : float; posZ : float;
  sentTime : LONGLONG
}.

(** Static storage duration: the global [svPose] starts zero-filled. *)
Definition zero : t := mk 0 0 0 0 0 0 0 0.
End SVPose.

Module ClientToServerPacket.
(** Modelled from the spec: declared in the same missing header; the
    three fields are the ones [ListenForData] assigns. *)
Record t := mk {
  sentTime : LONGLONG;
  captureLatency : int;
  additionalOffsetTime : LONGLONG
}.

Definition zero : t := mk 0 0 0.

Definition set_sentTime v (p : t) := mk v (captureLatency p) (additionalOffsetTime p).
Definition set_captureLatency v (p : t) := mk (sentTime p) v (additionalOffsetTime p).
Definition set_additionalOffsetTime v (p : t) := mk (sentTime p) (captureLatency p) v.
End ClientToServerPacket.

(** ** The outside world *)

(** [TCPSocket] (Network.h) is not among the sources, so what
    [tcp.ReceiveData(poseBytes, sizeof(SVPose))] does is an input of the
    model: [Some p] when it returns [true], having filled the buffer
    with the record [p]; [None] when it returns [false], which is all
    the plugin sees of a closed peer, a socket error or a read that did
    not deliver the whole record. *)
Definition received := option SVPose.t.

(** Calls that leave the translation unit, in program order. *)
Inductive call :=
| create_task
| tcp_CreateClientListener (ip : string) (ok : bool)
| tcp_SendData (pkt : ClientToServerPacket.t)
| tcp_ReceiveData (got : received)
| ci_GetFrameDelayMS (ms : int)
| ci_UpdateFrameProvider
| ci_InitializeVideoEncoder (device : pointer) (ok : bool)
| ci_TakePicture (tex : pointer)
| ci_IsVideoFrameReady (ready : bool)
| ci_RecordFrameAsync (tex : pointer)
| ci_StartRecording
| ci_StopRecording
| ci_Initialize (device srv output : pointer) (ok : bool)
| ci_StopFrameProvider
| ci_Update
| ci_OutputYUV (yuv : bool)
| new_CompositorInterface (p : pointer)
| DirectXHelper_CreateTexture (device tex : pointer)
| DirectXHelper_CreateShaderResourceView (device tex srv : pointer)
| s_Graphics_RegisterDeviceEventCallback
| s_Graphics_UnregisterDeviceEventCallback.

Definition is_network_call (c : call) : bool :=
  match c with
  | tcp_CreateClientListener _ _ | tcp_SendData _ | tcp_ReceiveData _ => true
  | _ => false
  end.

Definition is_compositor_call (c : call) : bool :=
  match c with
  | ci_GetFrameDelayMS _ | ci_UpdateFrameProvider | ci_InitializeVideoEncoder _ _
  | ci_TakePicture _ | ci_IsVideoFrameReady _ | ci_RecordFrameAsync _
  | ci_StartRecording | ci_StopRecording | ci_Initialize _ _ _ _
  | ci_StopFrameProvider | ci_Update | ci_OutputYUV _ => true
  | _ => false
  end.

(** ** The globals of the translation unit *)

Record Globals := mkGlobals {
  SpectatorViewIP : option string;        (* char*, [None] is nullptr *)
  connectedToServer : bool;
  connectingToServer : bool;
  s_RendererType : UnityGfxRenderer;
  g_pD3D11Device : pointer;
  g_pD3DContext : pointer;
  additionalOffsetTime : LONGLONG;
  svPose : SVPose.t;
  poseBytes : option SVPose.t;            (* receive buffer; [None]: contents indeterminate *)
  sentData : ClientToServerPacket.t;
  ci : pointer;
  isRecording : bool;
  videoInitialized : bool;
  takePicture : bool;
  g_colorTexture : pointer;
  g_UnityColorSRV : pointer;
  g_outputTexture : pointer;
  g_videoTexture : pointer;
  renderlock : bool;                      (* std::mutex, [true] while held *)
  listenTasks : nat;                      (* retry loops started by create_task and not yet returned *)
  trace : list call                       (* outside calls made so far *)
}.

Definition set_SpectatorViewIP v (s : Globals) : Globals :=
  {| SpectatorViewIP := v; connectedToServer := connectedToServer s;
     connectingToServer := connectingToServer s; s_RendererType := s_RendererType s;
     g_pD3D11Device := g_pD3D11Device s; g_pD3DContext := g_pD3DContext s;
     additionalOffsetTime := additionalOffsetTime s; svPose := svPose s;
     poseBytes := poseBytes s; sentData := sentData s; ci := ci s;
     isRecording := isRecording s; videoInitialized := videoInitialized s;
     takePicture := takePicture s; g_colorTexture := g_colorTexture s;
     g_UnityColorSRV := g_UnityColorSRV s; g_outputTexture := g_outputTexture s;
     g_videoTexture := g_videoTexture s; renderlock := renderlock s;
     listenTasks := listenTasks s; trace := trace s |}.

Definition set_connectedToServer v (s : Globals) : Globals :=
  {| SpectatorViewIP := SpectatorViewIP s; connectedToServer := v;
     connectingToServer := connectingToServer s; s_RendererType := s_RendererType s;
     g_pD3D11Device := g_pD3D11Device s; g_pD3DContext := g_pD3DContext s;
     additionalOffsetTime := additionalOffsetTime s; svPose := svPose s;
     poseBytes := poseBytes s; sentData := sentData s; ci := ci s;
     isRecording := isRecording s; videoInitialized := videoInitialized s;
     takePicture := takePicture s; g_colorTexture := g_colorTexture s;
     g_UnityColorSRV := g_UnityColorSRV s; g_outputTexture := g_outputTexture s;
     g_videoTexture := g_videoTexture s; renderlock := renderlock s;
     listenTasks := listenTasks s; trace := trace s |}.

Definition set_connectingToServer v (s : Globals) : Globals :=
  {| SpectatorViewIP := SpectatorViewIP s; connectedToServer := connectedToServer s;
     connectingToServer := v; s_RendererType := s_RendererType s;
     g_pD3D11Device := g_pD3D11Device s; g_pD3DContext := g_pD3DContext s;
     additionalOffsetTime := additionalOffsetTime s; svPose := svPose s;
     poseBytes := poseBytes s; sentData := sentData s; ci := ci s;
     isRecording := isRecording s; videoInitialized := videoInitialized s;
     takePicture := takePicture s; g_colorTexture := g_colorTexture s;
     g_UnityColorSRV := g_UnityColorSRV s; g_outputTexture := g_outputTexture s;
     g_videoTexture := g_videoTexture s; renderlock := renderlock s;
     listenTasks := listenTasks s; trace := trace s |}.

Definition set_s_RendererType v (s : Globals) : Globals :=
  {| SpectatorViewIP := SpectatorViewIP s; connectedToServer := connectedToServer s;
     connectingToServer := connectingToServer s; s_RendererType := v;
     g_pD3D11Device := g_pD3D11Device s; g_pD3DContext := g_pD3DContext s;
     additionalOffsetTime := additionalOffsetTime s; svPose := svPose s;
     poseBytes := poseBytes s; sentData := sentData s; ci := ci s;
     isRecording := isRecording s; videoInitialized := videoInitialized s;
     takePicture := takePicture s; g_colorTexture := g_colorTexture s;
     g_UnityColorSRV := g_UnityColorSRV s; g_outputTexture := g_outputTexture s;
     g_videoTexture := g_videoTexture s; renderlock := renderlock s;
     listenTasks := listenTasks s; trace := trace s |}.

Definition set_g_pD3D11Device v (s : Globals) : Globals :=
  {| SpectatorViewIP := SpectatorViewIP s; connectedToServer := connectedToServer s;
     connectingToServer := connectingToServer s; s_RendererType := s_RendererType s;
     g_pD3D11Device := v; g_pD3DContext := g_pD3DContext s;
     additionalOffsetTime := additionalOffsetTime s; svPose := svPose s;
     poseBytes := poseBytes s; sentData := sentData s; ci := ci s;
     isRecording := isRecording s; videoInitialized := videoInitialized s;
     takePicture := takePicture s; g_colorTexture := g_colorTexture s;
     g_UnityColorSRV := g_UnityColorSRV s; g_outputTexture := g_outputTexture s;
     g_videoTexture := g_videoTexture s; renderlock := renderlock s;
     listenTasks := listenTasks s; trace := trace s |}.

Definition set_g_pD3DContext v (s : Globals) : Globals :=
  {| SpectatorViewIP := SpectatorViewIP s; connectedToServer := connectedToServer s;
     connectingToServer := connectingToServer s; s_RendererType := s_RendererType s;
     g_pD3D11Device := g_pD3D11Device s; g_pD3DContext := v;
     additionalOffsetTime := additionalOffsetTime s; svPose := svPose s;
     poseBytes := poseBytes s; sentData := sentData s; ci := ci s;
     isRecording := isRecording s; videoInitialized := videoInitialized s;
     takePicture := takePicture s; g_colorTexture := g_colorTexture s;
     g_UnityColorSRV := g_UnityColorSRV s; g_outputTexture := g_outputTexture s;
     g_videoTexture := g_videoTexture s; renderlock := renderlock s;
     listenTasks := listenTasks s; trace := trace s |}.

Definition set_additionalOffsetTime v (s : Globals) : Globals :=
  {| SpectatorViewIP := SpectatorViewIP s; connectedToServer := connectedToServer s;
     connectingToServer := connectingToServer s; s_RendererType := s_RendererType s;
     g_pD3D11Device := g_pD3D11Device s; g_pD3DContext := g_pD3DContext s;
     additionalOffsetTime := v; svPose := svPose s; poseBytes := poseBytes s;
     sentData := sentData s; ci := ci s; isRecording := isRecording s;
     videoInitialized := videoInitialized s; takePicture := takePicture s;
     g_colorTexture := g_colorTexture s; g_UnityColorSRV := g_UnityColorSRV s;
     g_outputTexture := g_outputTexture s; g_videoTexture := g_videoTexture s;
     renderlock := renderlock s; listenTasks := listenTasks s; trace := trace s |}.

Definition set_svPose v (s : Globals) : Globals :=
  {| SpectatorViewIP := SpectatorViewIP s; connectedToServer := connectedToServer s;
     connectingToServer := connectingToServer s; s_RendererType := s_RendererType s;
     g_pD3D11Device := g_pD3D11Device s; g_pD3DContext := g_pD3DContext s;
     additionalOffsetTime := additionalOffsetTime s; svPose := v; poseBytes := poseBytes s;
     sentData := sentData s; ci := ci s; isRecording := isRecording s;
     videoInitialized := videoInitialized s; takePicture := takePicture s;
     g_colorTexture := g_colorTexture s; g_UnityColorSRV := g_UnityColorSRV s;
     g_outputTexture := g_outputTexture s; g_videoTexture := g_videoTexture s;
     renderlock := renderlock s; listenTasks := listenTasks s; trace := trace s |}.

Definition set_poseBytes v (s : Globals) : Globals :=
  {| SpectatorViewIP := SpectatorViewIP s; connectedToServer := connectedToServer s;
     connectingToServer := connectingToServer s; s_RendererType := s_RendererType s;
     g_pD3D11Device := g_pD3D11Device s; g_pD3DContext := g_pD3DContext s;
     additionalOffsetTime := additionalOffsetTime s; svPose := svPose s; poseBytes := v;
     sentData := sentData s; ci := ci s; isRecording := isRecording s;
     videoInitialized := videoInitialized s; takePicture := takePicture s;
     g_colorTexture := g_colorTexture s; g_UnityColorSRV := g_UnityColorSRV s;
     g_outputTexture := g_outputTexture s; g_videoTexture := g_videoTexture s;
     renderlock := renderlock s; listenTasks := listenTasks s; trace := trace s |}.

Definition set_sentData v (s : Globals) : Globals :=
  {| SpectatorViewIP := SpectatorViewIP s; connectedToServer := connectedToServer s;
     connectingToServer := connectingToServer s; s_RendererType := s_RendererType s;
     g_pD3D11Device := g_pD3D11Device s; g_pD3DContext := g_pD3DContext s;
     additionalOffsetTime := additionalOffsetTime s; svPose := svPose s;
     poseBytes := poseBytes s; sentData := v; ci := ci s; isRecording := isRecording s;
     videoInitialized := videoInitialized s; takePicture := takePicture s;
     g_colorTexture := g_colorTexture s; g_UnityColorSRV := g_UnityColorSRV s;
     g_outputTexture := g_outputTexture s; g_videoTexture := g_videoTexture s;
     renderlock := renderlock s; listenTasks := listenTasks s; trace := trace s |}.

Definition set_ci v (s : Globals) : Globals :=
  {| SpectatorViewIP := SpectatorViewIP s; connectedToServer := connectedToServer s;
     connectingToServer := connectingToServer s; s_RendererType := s_RendererType s;
     g_pD3D11Device := g_pD3D11Device s; g_pD3DContext := g_pD3DContext s;
     additionalOffsetTime := additionalOffsetTime s; svPose := svPose s;
     poseBytes := poseBytes s; sentData := sentData s; ci := v;
     isRecording := isRecording s; videoInitialized := videoInitialized s;
     takePicture := takePicture s; g_colorTexture := g_colorTexture s;
     g_UnityColorSRV := g_UnityColorSRV s; g_outputTexture := g_outputTexture s;
     g_videoTexture := g_videoTexture s; renderlock := renderlock s;
     listenTasks := listenTasks s; trace := trace s |}.

Definition set_isRecording v (s : Globals) : Globals :=
  {| SpectatorViewIP := SpectatorViewIP s; connectedToServer := connectedToServer s;
     connectingToServer := connectingToServer s; s_RendererType := s_RendererType s;
     g_pD3D11Device := g_pD3D11Device s; g_pD3DContext := g_pD3DContext s;
     additionalOffsetTime := additionalOffsetTime s; svPose := svPose s;
     poseBytes := poseBytes s; sentData := sentData s; ci := ci s; isRecording := v;
     videoInitialized := videoInitialized s; takePicture := takePicture s;
     g_colorTexture := g_colorTexture s; g_UnityColorSRV := g_UnityColorSRV s;
     g_outputTexture := g_outputTexture s; g_videoTexture := g_videoTexture s;
     renderlock := renderlock s; listenTasks := listenTasks s; trace := trace s |}.

Definition set_videoInitialized v (s : Globals) : Globals :=
  {| SpectatorViewIP := SpectatorViewIP s; connectedToServer := connectedToServer s;
     connectingToServer := connectingToServer s; s_RendererType := s_RendererType s;
     g_pD3D11Device := g_pD3D11Device s; g_pD3DContext := g_pD3DContext s;
     additionalOffsetTime := additionalOffsetTime s; svPose := svPose s;
     poseBytes := poseBytes s; sentData := sentData s; ci := ci s;
     isRecording := isRecording s; videoInitialized := v; takePicture := takePicture s;
     g_colorTexture := g_colorTexture s; g_UnityColorSRV := g_UnityColorSRV s;
     g_outputTexture := g_outputTexture s; g_videoTexture := g_videoTexture s;
     renderlock := renderlock s; listenTasks := listenTasks s; trace := trace s |}.

Definition set_takePicture v (s : Globals) : Globals :=
  {| SpectatorViewIP := SpectatorViewIP s; connectedToServer := connectedToServer s;
     connectingToServer := connectingToServer s; s_RendererType := s_RendererType s;
     g_pD3D11Device := g_pD3D11Device s; g_pD3DContext := g_pD3DContext s;
     additionalOffsetTime := additionalOffsetTime s; svPose := svPose s;
     poseBytes := poseBytes s; sentData := sentData s; ci := ci s;
     isRecording := isRecording s; videoInitialized := videoInitialized s;
     takePicture := v; g_colorTexture := g_colorTexture s;
     g_UnityColorSRV := g_UnityColorSRV s; g_outputTexture := g_outputTexture s;
     g_videoTexture := g_videoTexture s; renderlock := renderlock s;
     listenTasks := listenTasks s; trace := trace s |}.

Definition set_g_colorTexture v (s : Globals) : Globals :=
  {| SpectatorViewIP := SpectatorViewIP s; connectedToServer := connectedToServer s;
     connectingToServer := connectingToServer s; s_RendererType := s_RendererType s;
     g_pD3D11Device := g_pD3D11Device s; g_pD3DContext := g_pD3DContext s;
     additionalOffsetTime := additionalOffsetTime s; svPose := svPose s;
     poseBytes := poseBytes s; sentData := sentData s; ci := ci s;
     isRecording := isRecording s; videoInitialized := videoInitialized s;
     takePicture := takePicture s; g_colorTexture := v;
     g_UnityColorSRV := g_UnityColorSRV s; g_outputTexture := g_outputTexture s;
     g_videoTexture := g_videoTexture s; renderlock := renderlock s;
     listenTasks := listenTasks s; trace := trace s |}.

Definition set_g_UnityColorSRV v (s : Globals) : Globals :=
  {| SpectatorViewIP := SpectatorViewIP s; connectedToServer := connectedToServer s;
     connectingToServer := connectingToServer s; s_RendererType := s_RendererType s;
     g_pD3D11Device := g_pD3D11Device s; g_pD3DContext := g_pD3DContext s;
     additionalOffsetTime := additionalOffsetTime s; svPose := svPose s;
     poseBytes := poseBytes s; sentData := sentData s; ci := ci s;
     isRecording := isRecording s; videoInitialized := videoInitialized s;
     takePicture := takePicture s; g_colorTexture := g_colorTexture s;
     g_UnityColorSRV := v; g_outputTexture := g_outputTexture s;
     g_videoTexture := g_videoTexture s; renderlock := renderlock s;
     listenTasks := listenTasks s; trace := trace s |}.

Definition set_g_outputTexture v (s : Globals) : Globals :=
  {| SpectatorViewIP := SpectatorViewIP s; connectedToServer := connectedToServer s;
     connectingToServer := connectingToServer s; s_RendererType := s_RendererType s;
     g_pD3D11Device := g_pD3D11Device s; g_pD3DContext := g_pD3DContext s;
     additionalOffsetTime := additionalOffsetTime s; svPose := svPose s;
     poseBytes := poseBytes s; sentData := sentData s; ci := ci s;
     isRecording := isRecording s; videoInitialized := videoInitialized s;
     takePicture := takePicture s; g_colorTexture := g_colorTexture s;
     g_UnityColorSRV := g_UnityColorSRV s; g_outputTexture := v;
     g_videoTexture := g_videoTexture s; renderlock := renderlock s;
     listenTasks := listenTasks s; trace := trace s |}.

Definition set_g_videoTexture v (s : Globals) : Globals :=
  {| SpectatorViewIP := SpectatorViewIP s; connectedToServer := connectedToServer s;
     connectingToServer := connectingToServer s; s_RendererType := s_RendererType s;
     g_pD3D11Device := g_pD3D11Device s; g_pD3DContext := g_pD3DContext s;
     additionalOffsetTime := additionalOffsetTime s; svPose := svPose s;
     poseBytes := poseBytes s; sentData := sentData s; ci := ci s;
     isRecording := isRecording s; videoInitialized := videoInitialized s;
     takePicture := takePicture s; g_colorTexture := g_colorTexture s;
     g_UnityColorSRV := g_UnityColorSRV s; g_outputTexture := g_outputTexture s;
     g_videoTexture := v; renderlock := renderlock s; listenTasks := listenTasks s;
     trace := trace s |}.

Definition set_renderlock v (s : Globals) : Globals :=
  {| SpectatorViewIP := SpectatorViewIP s; connectedToServer := connectedToServer s;
     connectingToServer := connectingToServer s; s_RendererType := s_RendererType s;
     g_pD3D11Device := g_pD3D11Device s; g_pD3DContext := g_pD3DContext s;
     additionalOffsetTime := additionalOffsetTime s; svPose := svPose s;
     poseBytes := poseBytes s; sentData := sentData s; ci := ci s;
     isRecording := isRecording s; videoInitialized := videoInitialized s;
     takePicture := takePicture s; g_colorTexture := g_colorTexture s;
     g_UnityColorSRV := g_UnityColorSRV s; g_outputTexture := g_outputTexture s;
     g_videoTexture := g_videoTexture s; renderlock := v; listenTasks := listenTasks s;
     trace := trace s |}.

Definition set_listenTasks v (s : Globals) : Globals :=
  {| SpectatorViewIP := SpectatorViewIP s; connectedToServer := connectedToServer s;
     connectingToServer := connectingToServer s; s_RendererType := s_RendererType s;
     g_pD3D11Device := g_pD3D11Device s; g_pD3DContext := g_pD3DContext s;
     additionalOffsetTime := additionalOffsetTime s; svPose := svPose s;
     poseBytes := poseBytes s; sentData := sentData s; ci := ci s;
     isRecording := isRecording s; videoInitialized := videoInitialized s;
     takePicture := takePicture s; g_colorTexture := g_colorTexture s;
     g_UnityColorSRV := g_UnityColorSRV s; g_outputTexture := g_outputTexture s;
     g_videoTexture := g_videoTexture s; renderlock := renderlock s; listenTasks := v;
     trace := trace s |}.

Definition set_trace v (s : Globals) : Globals :=
  {| SpectatorViewIP := SpectatorViewIP s; connectedToServer := connectedToServer s;
     connectingToServer := connectingToServer s; s_RendererType := s_RendererType s;
     g_pD3D11Device := g_pD3D11Device s; g_pD3DContext := g_pD3DContext s;
     additionalOffsetTime := additionalOffsetTime s; svPose := svPose s;
     poseBytes := poseBytes s; sentData := sentData s; ci := ci s;
     isRecording := isRecording s; videoInitialized := videoInitialized s;
     takePicture := takePicture s; g_colorTexture := g_colorTexture s;
     g_UnityColorSRV := g_UnityColorSRV s; g_outputTexture := g_outputTexture s;
     g_videoTexture := g_videoTexture s; renderlock := renderlock s;
     listenTasks := listenTasks s; trace := v |}.

Definition log (c : call) (s : Globals) : Globals := set_trace (trace s ++ [c]) s.

(** The state the process starts in: every global zero-initialised,
    [poseBytes] a fresh uninitialised array. *)
Definition initial : Globals :=
  {| SpectatorViewIP := None; connectedToServer := false; connectingToServer := false;
     s_RendererType := kUnityGfxRendererNull;
     g_pD3D11Device := nullptr; g_pD3DContext := nullptr;
     additionalOffsetTime := 0; svPose := SVPose.zero; poseBytes := None;
     sentData := ClientToServerPacket.zero; ci := nullptr;
     isRecording := false; videoInitialized := false; takePicture := false;
     g_colorTexture := nullptr; g_UnityColorSRV := nullptr;
     g_outputTexture := nullptr; g_videoTexture := nullptr;
     renderlock := false; listenTasks := 0%nat; trace := [] |}.

(** ** Faults *)

(** A call through a null object pointer ([ci->...] with [ci == NULL])
    ends the process; nothing is returned to the caller.  The fault
    keeps the globals as they stood when it happened. *)
Inductive result (A : Type) : Type :=
| Done (a : A)
| AccessViolation (at_fault : Globals).
Arguments Done {A} a.
Arguments AccessViolation {A} at_fault.

Definition bind {A B} (r : result A) (k : A -> result B) : result B :=
  match r with
  | Done a => k a
  | AccessViolation s => AccessViolation s
  end.

Notation "x <- r ;; k" := (bind r (fun x => k))
  (at level 61, r at next level, right associativity).

Definition completes {A} (r : result A) : bool :=
  match r with Done _ => true | AccessViolation _ => false end.

(** ** Connection supervisor *)

(** [ListenForServer]: returns at once when a connection exists or is
    being made; otherwise hands the retry loop to [create_task].  The
    flags are not touched here: [connectingToServer] is first written
    by the task itself. *)
Definition ListenForServer (s : Globals) : Globals :=
  if connectingToServer s || connectedToServer s then s
  else set_listenTasks (S (listenTasks s)) (log create_task s).

(** One pass through the body of the task's [while (true)].  [accept]
    is what [tcp.CreateClientListener] answers if it is called.  The
    second component tells whether the task returned; otherwise it
    sleeps 100 ms and goes round again. *)
Definition ListenForServer_task_body (accept : bool) (s : Globals) : Globals * bool :=
  let s := set_connectingToServer true s in
  let s :=
    match negb (connectedToServer s), SpectatorViewIP s with
    | true, Some ip =>
        set_connectedToServer accept (log (tcp_CreateClientListener ip accept) s)
    | _, _ => s
    end in
  if connectedToServer s
  then (set_connectingToServer false s, true)
  else (s, false).

(** One live retry task runs a whole pass with nothing in between: a
    sequential schedule of the statements below
    ([pass_is_uninterrupted]). *)
Definition ListenForServer_task (accept : bool) (s : Globals) : Globals :=
  match listenTasks s with
  | O => s
  | S k =>
      let (s', returned) := ListenForServer_task_body accept s in
      if returned then set_listenTasks k s' else s'
  end.

(** ** Pose synchroniser *)

(** [ListenForData].  [got] is the outcome of [tcp.ReceiveData],
    [delay] what [ci->GetFrameDelayMS()] answers. *)
Definition ListenForData (got : received) (delay : int) (s : Globals) : result Globals :=
  if connectedToServer s then
    let s := log (tcp_SendData (sentData s)) s in
    let s := log (tcp_ReceiveData got) s in
    match got with
    | Some bytes =>
        let s := set_poseBytes (Some bytes) s in
        (* memcpy(&svPose, poseBytes, sizeof(SVPose)) *)
        let s := set_svPose bytes s in
        let s := set_sentData
                   (ClientToServerPacket.set_sentTime (SVPose.sentTime (svPose s)) (sentData s)) s in
        (* ci->GetFrameDelayMS() *)
        if is_null (ci s) then AccessViolation s
        else
          let s := log (ci_GetFrameDelayMS delay) s in
          let s := set_sentData (ClientToServerPacket.set_captureLatency delay (sentData s)) s in
          let s := set_sentData
                     (ClientToServerPacket.set_additionalOffsetTime
                        (additionalOffsetTime s) (sentData s)) s in
          Done s
    | None =>
        let s := set_poseBytes None s in
        (* Connection has ended, wait for SV to come back online. *)
        let s := set_connectedToServer false s in
        Done (ListenForServer s)
    end
  else Done s.

Definition SetSpectatorViewIP (ip : string) (s : Globals) : Globals :=
  let s := set_SpectatorViewIP (Some ip) s in
  ListenForServer s.

Definition pos_of (p : SVPose.t) : XMFLOAT3 :=
  mkXMFLOAT3 (SVPose.posX p) (SVPose.posY p) (SVPose.posZ p).
Definition rot_of (p : SVPose.t) : XMFLOAT4 :=
  mkXMFLOAT4 (SVPose.rotX p) (SVPose.rotY p) (SVPose.rotZ p) (SVPose.rotW p).

(** [GetPose]: the two reference parameters [pos] and [rot] are the
    second and third components of the result. *)
Definition GetPose (nsPast : int) (got : received) (delay : int) (s : Globals)
  : result (Globals * XMFLOAT3 * XMFLOAT4) :=
  let s := set_additionalOffsetTime (LONGLONG_of_int nsPast) s in
  s <- ListenForData got delay s ;;
  Done (s, pos_of (svPose s), rot_of (svPose s)).

(** ** Render-event pipeline *)

(** [OnRenderEvent].  [encoderOk] is what [ci->InitializeVideoEncoder]
    answers and [frameReady] what [ci->IsVideoFrameReady] answers, when
    they are called. *)
Definition OnRenderEvent (eventID : int) (encoderOk frameReady : bool) (s : Globals) : Globals :=
  if is_null (ci s) then s
  else
    let s := set_renderlock true s in
    let s :=
      if negb (is_null (g_pD3D11Device s)) then
        let s := log ci_UpdateFrameProvider s in
        let s :=
          if negb (videoInitialized s) && negb (is_null (ci s))
          then set_videoInitialized encoderOk
                 (log (ci_InitializeVideoEncoder (g_pD3D11Device s) encoderOk) s)
          else s in
        (* Photo *)
        let s :=
          if takePicture s
          then log (ci_TakePicture (g_outputTexture s)) (set_takePicture false s)
          else s in
        (* Video *)
        if isRecording s && negb (is_null (g_videoTexture s)) then
          let s := log (ci_IsVideoFrameReady frameReady) s in
          if frameReady then log (ci_RecordFrameAsync (g_videoTexture s)) s else s
        else s
      else s in
    set_renderlock false s.

Definition TakePicture (s : Globals) : Globals := set_takePicture true s.

Definition StartRecording (s : Globals) : Globals :=
  if videoInitialized s && negb (is_null (ci s))
  then set_isRecording true (log ci_StartRecording s)
  else s.

Definition StopRecording (s : Globals) : Globals :=
  if videoInitialized s && negb (is_null (ci s))
  then set_isRecording false (log ci_StopRecording s)
  else s.

Definition IsRecording (s : Globals) : bool := isRecording s.

(** [OnGraphicsDeviceEvent].  [renderer] is what
    [s_Graphics->GetRenderer()] answers, [d3d11] the interface the host
    hands out, [device] and [context] what it gives for the device and
    its immediate context. *)
Definition OnGraphicsDeviceEvent (eventType : UnityGfxDeviceEventType)
    (renderer : UnityGfxRenderer) (d3d11 device context : pointer) (s : Globals)
  : result Globals :=
  match eventType with
  | kUnityGfxDeviceEventInitialize =>
      let s := set_s_RendererType renderer s in
      if negb (is_null d3d11) then
        let s := set_g_pD3D11Device device s in
        if is_null (g_pD3D11Device s) then AccessViolation s
        else Done (set_g_pD3DContext context s)
      else Done s
  | kUnityGfxDeviceEventShutdown => Done (set_s_RendererType kUnityGfxRendererNull s)
  | kUnityGfxDeviceEventBeforeReset => Done s
  | kUnityGfxDeviceEventAfterReset => Done s
  end.

(** [UnityPluginLoad].  The host's interface table ([s_UnityInterfaces],
    [s_Graphics]) is the host's to keep valid and is not part of
    [Globals]. *)
Definition UnityPluginLoad (renderer : UnityGfxRenderer) (d3d11 device context : pointer)
    (s : Globals) : result Globals :=
  let s := log s_Graphics_RegisterDeviceEventCallback s in
  (* Run OnGraphicsDeviceEvent(initialize) manually on plugin load *)
  OnGraphicsDeviceEvent kUnityGfxDeviceEventInitialize renderer d3d11 device context s.

(** [ResetSV], statement by statement: the [lock_guard] takes
    [renderlock], the four slots are cleared, the guard's destructor
    gives the lock back. *)
Definition ResetSV_statements : list (Globals -> Globals) :=
  [ set_renderlock true;
    set_g_colorTexture nullptr;
    set_g_UnityColorSRV nullptr;
    set_g_outputTexture nullptr;
    set_g_videoTexture nullptr;
    set_renderlock false ].

Definition run_statements (body : list (Globals -> Globals)) (s : Globals) : Globals :=
  fold_left (fun s stmt => stmt s) body s.

Definition ResetSV (s : Globals) : Globals := run_statements ResetSV_statements s.

Definition UnityPluginUnload (s : Globals) : Globals :=
  log s_Graphics_UnregisterDeviceEventCallback (ResetSV s).

(** ** Texture binding *)

Definition SetOutputRenderTexture (tex : pointer) (s : Globals) : Globals * bool :=
  let s := if is_null (g_outputTexture s) then set_g_outputTexture tex s else s in
  (s, negb (is_null (g_outputTexture s))).

Definition SetVideoRenderTexture (tex : pointer) (s : Globals) : Globals * bool :=
  let s := if is_null (g_videoTexture s) then set_g_videoTexture tex s else s in
  (s, negb (is_null (g_videoTexture s))).

(** [CreateUnityColorTexture].  [newTex] and [newSrv] are what the two
    DirectXHelper calls answer.  The third component is the value left
    in the reference parameter [srv], [None] when it is not assigned. *)
Definition CreateUnityColorTexture (newTex newSrv : pointer) (s : Globals)
  : Globals * bool * option pointer :=
  if is_null (g_UnityColorSRV s) && negb (is_null (g_pD3D11Device s)) then
    let s := set_g_colorTexture newTex
               (log (DirectXHelper_CreateTexture (g_pD3D11Device s) newTex) s) in
    if is_null (g_colorTexture s) then (s, false, None)
    else
      let s := set_g_UnityColorSRV newSrv
                 (log (DirectXHelper_CreateShaderResourceView
                         (g_pD3D11Device s) (g_colorTexture s) newSrv) s) in
      if is_null (g_UnityColorSRV s) then (s, false, None)
      else (s, true, Some (g_UnityColorSRV s))
  else (s, true, Some (g_UnityColorSRV s)).

(** [InitializeFrameProvider].  [fresh] is the address [new] returns,
    [initOk] what [ci->Initialize] answers. *)
Definition InitializeFrameProvider (fresh : pointer) (initOk : bool) (s : Globals)
  : Globals * bool :=
  if is_null (g_outputTexture s) || is_null (g_UnityColorSRV s) || is_null (g_pD3D11Device s)
  then (s, false)
  else
    let s := if is_null (ci s)
             then set_ci fresh (log (new_CompositorInterface fresh) s)
             else s in
    let (s, setColorSRV) :=
      if negb (is_null (ci s))
      then (log (ci_Initialize (g_pD3D11Device s) (g_UnityColorSRV s) (g_outputTexture s) initOk) s,
            initOk)
      else (s, false) in
    (s, negb (is_null (ci s)) && setColorSRV).

Definition StopFrameProvider (s : Globals) : Globals :=
  if negb (is_null (ci s)) then log ci_StopFrameProvider s else s.

Definition UpdateCompositor (s : Globals) : Globals :=
  if is_null (ci s) then s else log ci_Update s.

Definition OutputYUV (yuv : bool) (s : Globals) : Globals * bool :=
  if is_null (ci s) then (s, true) else (log (ci_OutputYUV yuv) s, yuv).

(** ** Runs of the plugin *)

(** Sequential schedules: the host calls an entry point, or a retry
    task runs one whole pass of its loop with nothing in between
    ([op_ListenForServer_task]), or (for the supervisor's trigger,
    which is not exported) the plugin itself calls [ListenForServer].
    These are the runs in which no call of the host falls inside a
    pass; the process in general is [running], further down. *)
Inductive op :=
| op_ListenForServer
| op_ListenForServer_task (accept : bool)
| op_SetSpectatorViewIP (ip : string)
| op_GetPose (nsPast : int) (got : received) (delay : int)
| op_OnRenderEvent (eventID : int) (encoderOk frameReady : bool)
| op_TakePicture
| op_StartRecording
| op_StopRecording
| op_OnGraphicsDeviceEvent (eventType : UnityGfxDeviceEventType)
    (renderer : UnityGfxRenderer) (d3d11 device context : pointer)
| op_UnityPluginLoad (renderer : UnityGfxRenderer) (d3d11 device context : pointer)
| op_ResetSV
| op_UnityPluginUnload
| op_SetOutputRenderTexture (tex : pointer)
| op_SetVideoRenderTexture (tex : pointer)
| op_CreateUnityColorTexture (newTex newSrv : pointer)
| op_InitializeFrameProvider (fresh : pointer) (initOk : bool)
| op_StopFrameProvider
| op_UpdateCompositor
| op_OutputYUV (yuv : bool).

Definition exec (o : op) (s : Globals) : result Globals :=
  match o with
  | op_ListenForServer => Done (ListenForServer s)
  | op_ListenForServer_task accept => Done (ListenForServer_task accept s)
  | op_SetSpectatorViewIP ip => Done (SetSpectatorViewIP ip s)
  | op_GetPose nsPast got delay =>
      r <- GetPose nsPast got delay s ;; Done (fst (fst r))
  | op_OnRenderEvent eventID encoderOk frameReady =>
      Done (OnRenderEvent eventID encoderOk frameReady s)
  | op_TakePicture => Done (TakePicture s)
  | op_StartRecording => Done (StartRecording s)
  | op_StopRecording => Done (StopRecording s)
  | op_OnGraphicsDeviceEvent eventType renderer d3d11 device context =>
      OnGraphicsDeviceEvent eventType renderer d3d11 device context s
  | op_UnityPluginLoad renderer d3d11 device context =>
      UnityPluginLoad renderer d3d11 device context s
  | op_ResetSV => Done (ResetSV s)
  | op_UnityPluginUnload => Done (UnityPluginUnload s)
  | op_SetOutputRenderTexture tex => Done (fst (SetOutputRenderTexture tex s))
  | op_SetVideoRenderTexture tex => Done (fst (SetVideoRenderTexture tex s))
  | op_CreateUnityColorTexture newTex newSrv =>
      Done (fst (fst (CreateUnityColorTexture newTex newSrv s)))
  | op_InitializeFrameProvider fresh initOk =>
      Done (fst (InitializeFrameProvider fresh initOk s))
  | op_StopFrameProvider => Done (StopFrameProvider s)
  | op_UpdateCompositor => Done (UpdateCompositor s)
  | op_OutputYUV yuv => Done (fst (OutputYUV yuv s))
  end.

Fixpoint run (ops : list op) (s : Globals) : result Globals :=
  match ops with
  | [] => Done s
  | o :: ops => s' <- exec o s ;; run ops s'
  end.

(** ** The process: retry tasks beside the host's calls *)

(** [create_task] puts the retry loop on a thread of its own, so the
    host's calls fall between any two statements of the loop body.
    A live task stands before one of these statements (the names give
    the source line). *)
Inductive task_pc :=
| at_L75    (* connectingToServer = true;  also: not yet started, or in Sleep(100) *)
| at_L76    (* if (!connectedToServer && SpectatorViewIP != nullptr) *)
| at_L78    (* connectedToServer = tcp.CreateClientListener(SpectatorViewIP); *)
| at_L81    (* if (connectedToServer) *)
| at_L83.   (* connectingToServer = false; return; *)

(** The task is inside a pass: past line 75 and neither asleep nor gone. *)
Definition mid_pass (pc : task_pc) : bool :=
  match pc with
  | at_L75 => false
  | _ => true
  end.

Definition at_top (pc : task_pc) : bool := negb (mid_pass pc).

(** One statement of the loop body, run by a task standing at [pc].
    [accept] is what [tcp.CreateClientListener] answers at line 78.
    The result is the new globals and the place the task stands at
    next, [None] when it has returned.  A task reaches line 78 only
    through the test of line 76 and no code clears the address, so the
    address is there; [AccessViolation] stands for handing the socket a
    null address, which does not happen ([task_at_L78_has_address]). *)
Definition task_statement (pc : task_pc) (accept : bool) (s : Globals)
  : result (Globals * option task_pc) :=
  match pc with
  | at_L75 => Done (set_connectingToServer true s, Some at_L76)
  | at_L76 =>
      match negb (connectedToServer s), SpectatorViewIP s with
      | true, Some _ => Done (s, Some at_L78)
      | _, _ => Done (s, Some at_L81)
      end
  | at_L78 =>
      match SpectatorViewIP s with
      | Some ip =>
          Done (set_connectedToServer accept (log (tcp_CreateClientListener ip accept) s),
                Some at_L81)
      | None => AccessViolation s
      end
  | at_L81 =>
      if connectedToServer s then Done (s, Some at_L83)
      else Done (s, Some at_L75)   (* Sleep(100), then round again *)
  | at_L83 =>
      Done (set_listenTasks (Nat.pred (listenTasks s)) (set_connectingToServer false s), None)
  end.

(** The globals together with where each live retry task stands. *)
Record Process := mkProcess {
  globals : Globals;
  retry_tasks : list task_pc
}.

Fixpoint set_task (i : nat) (pc : task_pc) (tasks : list task_pc) : list task_pc :=
  match tasks, i with
  | [], _ => []
  | _ :: rest, O => pc :: rest
  | t :: rest, S i => t :: set_task i pc rest
  end.

Fixpoint end_task (i : nat) (tasks : list task_pc) : list task_pc :=
  match tasks, i with
  | [], _ => []
  | _ :: rest, O => rest
  | t :: rest, S i => t :: end_task i rest
  end.

(** Calls made on the host's thread: every operation but the whole
    pass of a retry task. *)
Definition is_host_call (o : op) : bool :=
  match o with
  | op_ListenForServer_task _ => false
  | _ => true
  end.

(** What happens next in the process: the host's thread makes a call
    and it runs to its end, or the [i]-th live retry task runs its
    next statement. *)
Inductive event :=
| host_call (o : op)
| task_runs (i : nat) (accept : bool).

(** A host call that went through [create_task] has raised
    [listenTasks]; the new task stands at the top of its loop. *)
Definition step (e : event) (p : Process) : result Process :=
  match e with
  | host_call o =>
      if is_host_call o then
        s' <- exec o (globals p) ;;
        Done (mkProcess s'
                (retry_tasks p
                 ++ repeat at_L75 (listenTasks s' - listenTasks (globals p))))
      else Done p
  | task_runs i accept =>
      match nth_error (retry_tasks p) i with
      | Some pc =>
          r <- task_statement pc accept (globals p) ;;
          Done (mkProcess (fst r)
                  match snd r with
                  | Some pc' => set_task i pc' (retry_tasks p)
                  | None => end_task i (retry_tasks p)
                  end)
      | None => Done p
      end
  end.

Fixpoint run_events (events : list event) (p : Process) : result Process :=
  match events with
  | [] => Done p
  | e :: events => p' <- step e p ;; run_events events p'
  end.

Definition start : Process := mkProcess initial [].

(** The processes that can come about. *)
Inductive running : Process -> Prop :=
| running_start : running start
| running_step e p p' : running p -> step e p = Done p' -> running p'.

(** States the process can be in: the globals of some running process,
    with the retry tasks anywhere in their loops. *)
Definition reachable (s : Globals) : Prop :=
  exists tasks, running (mkProcess s tasks).

(** Every live task is at the top of its loop. *)
Definition quiescent (s : Globals) : Prop :=
  running (mkProcess s (repeat at_L75 (listenTasks s))).

(** ** Vocabulary of the properties *)

Definition is_record_receipt (c : call) : bool :=
  match c with
  | tcp_ReceiveData (Some _) => true
  | _ => false
  end.

(** No [tcp.ReceiveData] has succeeded so far. *)
Definition no_record_received (s : Globals) : Prop :=
  forallb (fun c => negb (is_record_receipt c)) (trace s) = true.

Definition zero3 : XMFLOAT3 := mkXMFLOAT3 0 0 0.
Definition zero4 : XMFLOAT4 := mkXMFLOAT4 0 0 0 0.

Definition unbound (s : Globals) : Prop :=
  g_colorTexture s = nullptr /\ g_UnityColorSRV s = nullptr /\
  g_outputTexture s = nullptr /\ g_videoTexture s = nullptr.

(** The state a run ends in ([initial] stands in for a run that faults). *)
Definition state_after (ops : list op) : Globals :=
  match run ops initial with
  | Done s => s
  | AccessViolation _ => initial
  end.

(** The host configured the endpoint and the first connect attempt
    succeeded; it has not created a compositor session. *)
Definition linked_without_compositor : Globals :=
  state_after [op_SetSpectatorViewIP "127.0.0.1"%string; op_ListenForServer_task true].

(** The host loaded the plugin on a D3D11 device, bound the textures
    and initialised the frame provider. *)
Definition compositor_ops : list op :=
  [ op_UnityPluginLoad kUnityGfxRendererD3D11 1%N 2%N 3%N;
    op_SetOutputRenderTexture 4%N;
    op_SetVideoRenderTexture 5%N;
    op_CreateUnityColorTexture 6%N 7%N;
    op_InitializeFrameProvider 8%N true ].

Definition with_compositor : Globals := state_after compositor_ops.

(** As above, and connected to the peer. *)
Definition linked_with_compositor : Globals :=
  state_after (compositor_ops ++
               [op_SetSpectatorViewIP "127.0.0.1"%string; op_ListenForServer_task true]).

Definition sample_pose : SVPose.t :=
  SVPose.mk 0 0 0 1065353216 1065353216 1073741824 1077936128 42.

(** Entry points of the render side leave the link's globals alone and
    make no network call. *)
Definition render_side (o : op) : bool :=
  match o with
  | op_ListenForServer | op_ListenForServer_task _
  | op_SetSpectatorViewIP _ | op_GetPose _ _ _ => false
  | _ => true
  end.

(** The calls made between state [s] and the later state [s']. *)
Definition calls_between (s s' : Globals) : list call :=
  skipn (List.length (trace s)) (trace s').

(** The records handed to [tcp.SendData] between [s] and [s']. *)
Definition transmitted (s s' : Globals) : list ClientToServerPacket.t :=
  flat_map (fun c => match c with tcp_SendData pkt => [pkt] | _ => [] end)
           (calls_between s s').


(** A compositor session exists, a device is bound and a photo has
    been requested. *)
Definition photo_pending : Globals := state_after (compositor_ops ++ [op_TakePicture]).

(** The retry task runs one pass per element of [accepts]. *)
Definition ListenForServer_task_passes (accepts : list bool) (s : Globals) : Globals :=
  fold_left (fun s accept => ListenForServer_task accept s) accepts s.

Definition is_RecordFrameAsync (c : call) : bool :=
  match c with
  | ci_RecordFrameAsync _ => true
  | _ => false
  end.

(** ** Vocabulary of the further properties *)

(** The record delivered by the most recent successful
    [tcp.ReceiveData] in a trace; all zero when there is none. *)
Definition last_record (calls : list call) : SVPose.t :=
  fold_left (fun acc c => match c with
                          | tcp_ReceiveData (Some p) => p
                          | _ => acc
                          end) calls SVPose.zero.

(** Where the packet exchange stands: nothing outstanding, or a record
    sent and its answer not yet asked for; [ExchangeBroken] once a
    send follows a send or a receive comes unasked. *)
Inductive exchange := ExchangeIdle | ExchangeAwaiting | ExchangeBroken.

Definition exchange_step (e : exchange) (c : call) : exchange :=
  match c, e with
  | tcp_SendData _, ExchangeIdle => ExchangeAwaiting
  | tcp_SendData _, _ => ExchangeBroken
  | tcp_ReceiveData _, ExchangeAwaiting => ExchangeIdle
  | tcp_ReceiveData _, _ => ExchangeBroken
  | _, _ => e
  end.

Definition exchange_of (calls : list call) : exchange :=
  fold_left exchange_step calls ExchangeIdle.

Definition is_encoder_success (c : call) : bool :=
  match c with
  | ci_InitializeVideoEncoder _ true => true
  | _ => false
  end.

Definition is_TakePicture (c : call) : bool :=
  match c with
  | ci_TakePicture _ => true
  | _ => false
  end.

Definition records_null_frame (c : call) : bool :=
  match c with
  | ci_RecordFrameAsync tex => is_null tex
  | _ => false
  end.

(** Every step of the process keeps these relations between the flags
    of the connection supervisor and its retry tasks. *)
Definition supervisor_invariant (p : Process) : Prop :=
  List.length (retry_tasks p) = listenTasks (globals p) /\
  (connectingToServer (globals p) && connectedToServer (globals p) = true ->
   existsb mid_pass (retry_tasks p) = true) /\
  (connectingToServer (globals p) = true -> retry_tasks p <> []) /\
  (In at_L78 (retry_tasks p) -> SpectatorViewIP (globals p) <> None).

(** Every step keeps these relations between the globals of the render
    side. *)
Definition capture_invariant (s : Globals) : Prop :=
  renderlock s = false /\
  (isRecording s = true -> videoInitialized s = true) /\
  (videoInitialized s = true -> ci s <> nullptr /\ g_pD3D11Device s <> nullptr).

(** ... and these between the globals and the calls made so far. *)
Definition trace_invariant (s : Globals) : Prop :=
  (SpectatorViewIP s = None -> filter is_network_call (trace s) = []) /\
  (connectedToServer s = true -> SpectatorViewIP s <> None) /\
  (ci s = nullptr -> filter is_compositor_call (trace s) = []) /\
  svPose s = last_record (trace s) /\
  ClientToServerPacket.sentTime (sentData s) = SVPose.sentTime (svPose s) /\
  exchange_of (trace s) = ExchangeIdle /\
  List.length (filter is_encoder_success (trace s))
  = (if videoInitialized s then 1%nat else 0%nat) /\
  existsb records_null_frame (trace s) = false.

(** The operations of the link: everything that is not of the render side. *)
Definition link_side (o : op) : bool := negb (render_side o).

(** The session of [with_compositor], now with the encoder
    initialised by a first render tick, recording started, and a
    second tick that found a frame ready. *)
Definition recording_ops : list op :=
  compositor_ops ++
  [ op_OnRenderEvent 0 true false; op_StartRecording; op_OnRenderEvent 0 true true ].

Definition recording : Globals := state_after recording_ops.

(** Connected with a compositor session, after one query that
    received [sample_pose]. *)
Definition synced : Globals :=
  state_after (compositor_ops ++
               [ op_SetSpectatorViewIP "127.0.0.1"%string; op_ListenForServer_task true;
                 op_GetPose 1000000 (Some sample_pose) 16 ]).

(** Compositor calls that drive the session; reading its frame delay
    is not one. *)
Definition drives_compositor (c : call) : bool :=
  match c with
  | ci_GetFrameDelayMS _ => false
  | _ => is_compositor_call c
  end.

(** The process a schedule ends in ([start] stands in for one that faults). *)
Definition process_after (events : list event) : Process :=
  match run_events events start with
  | Done p => p
  | AccessViolation _ => start
  end.

(** The address is configured and the retry task has run lines 75, 76
    and 78, the peer accepting: it stands before the test of line 81. *)
Definition connect_events : list event :=
  [ host_call (op_SetSpectatorViewIP "127.0.0.1");
    task_runs 0 true; task_runs 0 true; task_runs 0 true ].

Definition mid_connect : Process := process_after connect_events.

(** The peer refused instead, and the task has gone to sleep. *)
Definition refused_once : Process :=
  process_after
    [ host_call (op_SetSpectatorViewIP "127.0.0.1");
      task_runs 0 false; task_runs 0 false; task_runs 0 false; task_runs 0 false ].

(** A compositor session exists; the retry task has connected and has
    passed the test of line 81 but not yet run line 83; meanwhile the
    host made a query, which received [sample_pose]. *)
Definition before_loss_events : list event :=
  map host_call compositor_ops ++ connect_events ++
  [ task_runs 0 true; host_call (op_GetPose 1000000 (Some sample_pose) 16) ].

Definition before_loss : Process := process_after before_loss_events.

(** Then a query's receive fails, and after it the task runs line 83. *)
Definition after_loss : Process :=
  process_after (before_loss_events ++
                 [ host_call (op_GetPose 7 None 0); task_runs 0 true ]).

(** Pose queries and statements of retry tasks. *)
Definition is_query_or_task (e : event) : bool :=
  match e with
  | host_call (op_GetPose _ _ _) => true
  | task_runs _ _ => true
  | _ => false
  end.

(** The link was up, a record was received, then a receive failed:
    disconnected, with [sample_pose] in the cache. *)
Definition dropped : Globals :=
  state_after (compositor_ops ++
               [ op_SetSpectatorViewIP "127.0.0.1"%string; op_ListenForServer_task true;
                 op_GetPose 1000000 (Some sample_pose) 16; op_GetPose 0 None 0 ]).

(** * Properties *)

Lemma is_null_true p : is_null p = true <-> p = nullptr.
Proof. unfold is_null. apply N.eqb_eq. Qed.

Lemma is_null_false p : is_null p = false <-> p <> nullptr.
Proof. unfold is_null. apply N.eqb_neq. Qed.

Lemma run_app ops1 ops2 s :
  run (ops1 ++ ops2) s = (s' <- run ops1 s ;; run ops2 s').
Proof.
  revert s; induction ops1 as [|o ops1 IH]; intros s; simpl; [reflexivity|].
  destruct (exec o s) as [s'|f]; simpl; [apply IH | reflexivity].
Qed.

(** ** Proof tools *)

(** Case analysis on a state goes through its fields. *)
Ltac globals s :=
  destruct s as [ip cted cting rt dev ctx off pose buf sent comp rec vinit pic
                 ctex srv otex vtex lck tasks tr].

(** Evaluation that keeps the trace readable. *)
Ltac evaluate := lazy -[app filter forallb is_network_call is_record_receipt].
Ltac evaluate_in H := lazy -[app filter forallb is_network_call is_record_receipt] in H.

Ltac trace_simpl :=
  repeat (rewrite ?forallb_app, ?filter_app; simpl);
  rewrite ?andb_true_r, ?app_nil_r.

Ltac finish_frame H :=
  evaluate_in H; try discriminate H; injection H as <-; evaluate; trace_simpl; auto.

(** Evaluation that leaves every function on traces folded. *)
Ltac evaluate_state :=
  lazy -[app filter forallb existsb fold_left List.length repeat skipn
         is_network_call is_compositor_call is_record_receipt is_encoder_success
         is_TakePicture records_null_frame drives_compositor exchange_step last_record
         exchange_of].
Ltac evaluate_state_in H :=
  lazy -[app filter forallb existsb fold_left List.length repeat skipn
         is_network_call is_compositor_call is_record_receipt is_encoder_success
         is_TakePicture records_null_frame drives_compositor exchange_step last_record
         exchange_of] in H.

(** The case analysis each entry point needs: the globals and
    arguments its branches test. *)
Ltac op_cases H :=
  match type of H with
  | exec ?o (mkGlobals ?ip ?cted ?cting _ ?dev _ _ _ _ _ ?comp ?rec ?vinit ?pic
                       _ ?srv ?otex ?vtex _ ?tasks _) = _ =>
      lazymatch o with
      | op_ListenForServer => destruct cting, cted
      | op_ListenForServer_task ?accept => destruct tasks, ip, cted, cting, accept
      | op_SetSpectatorViewIP _ => destruct cting, cted
      | op_GetPose _ ?got _ => destruct cted, got, comp, cting
      | op_OnRenderEvent _ ?encoderOk ?frameReady =>
          destruct comp, dev, vinit, pic, rec, vtex, encoderOk, frameReady
      | op_TakePicture => idtac
      | op_StartRecording => destruct comp, vinit
      | op_StopRecording => destruct comp, vinit
      | op_OnGraphicsDeviceEvent ?eventType _ ?d3d11 ?device _ =>
          destruct eventType, d3d11, device
      | op_UnityPluginLoad _ ?d3d11 ?device _ => destruct d3d11, device
      | op_ResetSV => idtac
      | op_UnityPluginUnload => idtac
      | op_SetOutputRenderTexture ?tex => destruct otex, tex
      | op_SetVideoRenderTexture ?tex => destruct vtex, tex
      | op_CreateUnityColorTexture ?newTex ?newSrv => destruct srv, dev, newTex, newSrv
      | op_InitializeFrameProvider ?fresh ?initOk =>
          destruct otex, srv, dev, comp, fresh, initOk
      | op_StopFrameProvider => destruct comp
      | op_UpdateCompositor => destruct comp
      | op_OutputYUV _ => destruct comp
      end
  end.

(** The same for one statement of a retry task. *)
Ltac task_cases H :=
  match type of H with
  | task_statement ?pc ?accept
      (mkGlobals ?ip ?cted _ _ _ _ _ _ _ _ _ _ _ _ _ _ _ _ _ _ _) = _ =>
      destruct pc, ip, cted, accept
  end.

Ltac step_done H :=
  evaluate_state_in H; try discriminate H; injection H as <-; evaluate_state.

Ltac task_done H :=
  evaluate_state_in H; try discriminate H; injection H as <- <-; evaluate_state.

Ltac trace_norm :=
  repeat rewrite ?filter_app, ?fold_left_app, ?length_app, ?existsb_app, ?forallb_app;
  simpl.

Lemma render_side_frame o s s' :
  render_side o = true -> exec o s = Done s' ->
  connectingToServer s' = connectingToServer s /\
  connectedToServer s' = connectedToServer s /\
  svPose s' = svPose s /\
  sentData s' = sentData s /\
  filter is_network_call (trace s') = filter is_network_call (trace s).
Proof.
  intros Ho H. globals s. destruct o; try discriminate Ho; clear Ho.
  - destruct comp, dev, vinit, pic, rec, vtex, encoderOk, frameReady; finish_frame H.
  - finish_frame H.
  - destruct comp, vinit; finish_frame H.
  - destruct comp, vinit; finish_frame H.
  - destruct eventType, d3d11, device; finish_frame H.
  - destruct d3d11, device; finish_frame H.
  - finish_frame H.
  - finish_frame H.
  - destruct otex, tex; finish_frame H.
  - destruct vtex, tex; finish_frame H.
  - destruct srv, dev, newTex, newSrv; finish_frame H.
  - destruct otex, srv, dev, comp, fresh, initOk; finish_frame H.
  - destruct comp; finish_frame H.
  - destruct comp; finish_frame H.
  - destruct comp; finish_frame H.
Qed.


(** ** The process and its sequential schedules *)

Lemma set_task_length i pc l : List.length (set_task i pc l) = List.length l.
Proof.
  revert i; induction l as [|t l IH]; intros [|i]; simpl; try reflexivity.
  now rewrite IH.
Qed.

Lemma end_task_length i l pc :
  nth_error l i = Some pc -> List.length (end_task i l) = Nat.pred (List.length l).
Proof.
  revert i; induction l as [|t l IH]; intros [|i] H; simpl in *; try discriminate.
  - reflexivity.
  - rewrite (IH i H). destruct l; [destruct i; discriminate H | reflexivity].
Qed.

Lemma set_task_existsb f i x l pc :
  nth_error l i = Some pc -> f x = true -> existsb f (set_task i x l) = true.
Proof.
  revert i; induction l as [|t l IH]; intros [|i] H Hx; simpl in *; try discriminate.
  - now rewrite Hx.
  - rewrite (IH i H Hx). apply orb_true_r.
Qed.

Lemma set_task_In y i x l : In y (set_task i x l) -> y = x \/ In y l.
Proof.
  revert i; induction l as [|t l IH]; intros [|i] H; simpl in *; try tauto.
  - destruct H as [H|H]; [left; now symmetry | right; now right].
  - destruct H as [H|H]; [right; now left|].
    destruct (IH i H) as [E|E]; [now left | right; now right].
Qed.

Lemma end_task_In y i l : In y (end_task i l) -> In y l.
Proof.
  revert i; induction l as [|t l IH]; intros [|i] H; simpl in *; try tauto.
  destruct H as [H|H]; [now left | right; exact (IH i H)].
Qed.

Lemma set_task_nonempty i x l pc : nth_error l i = Some pc -> set_task i x l <> [].
Proof. destruct l, i; simpl; intros H; try discriminate H; discriminate. Qed.

(** What a call on the host's thread can do to the supervisor's globals. *)
Lemma host_call_link o s s' :
  is_host_call o = true -> exec o s = Done s' ->
  (listenTasks s <= listenTasks s')%nat /\
  connectingToServer s' = connectingToServer s /\
  (connectedToServer s' = true -> connectedToServer s = true) /\
  (SpectatorViewIP s <> None -> SpectatorViewIP s' <> None).
Proof.
  intros Ho H. globals s. destruct o; try discriminate Ho; clear Ho;
    op_cases H; step_done H;
    intuition (try discriminate; try congruence; try lia).
Qed.

Lemma step_supervisor_invariant e p p' :
  step e p = Done p' -> supervisor_invariant p -> supervisor_invariant p'.
Proof.
  destruct p as [s pcs]. unfold supervisor_invariant. cbn [globals retry_tasks].
  intros H (I1 & I2 & I3 & I4). destruct e as [o|i accept]; cbn [step globals retry_tasks] in H.
  - destruct (is_host_call o) eqn:Ho; [|injection H as <-; cbn; auto].
    destruct (exec o s) as [s'|] eqn:E; cbn [bind] in H; [|discriminate].
    injection H as <-. cbn [globals retry_tasks].
    destruct (host_call_link o s s' Ho E) as (L1 & L2 & L3 & L4).
    split; [rewrite length_app, repeat_length; lia|].
    split; [|split].
    + intros B. rewrite existsb_app, I2; [reflexivity|].
      rewrite L2 in B. apply andb_true_iff in B. destruct B as [B1 B2].
      rewrite B1, (L3 B2). reflexivity.
    + intros C N. rewrite L2 in C. apply app_eq_nil in N. exact (I3 C (proj1 N)).
    + intros Hin. apply in_app_or in Hin. destruct Hin as [Hin|Hin].
      * exact (L4 (I4 Hin)).
      * apply repeat_spec in Hin. discriminate Hin.
  - destruct (nth_error pcs i) as [pc|] eqn:N; [|injection H as <-; cbn; auto].
    destruct (task_statement pc accept s) as [[s' next]|] eqn:T; cbn [bind] in H;
      [|discriminate].
    injection H as <-. cbn [globals retry_tasks fst snd].
    destruct pc; cbn [task_statement] in T.
    + injection T as <- <-. cbn.
      split; [now rewrite set_task_length|]. split; [|split].
      * intros _. now apply (set_task_existsb mid_pass i at_L76 pcs at_L75).
      * intros _. now apply (set_task_nonempty i at_L76 pcs at_L75).
      * intros Hin. apply set_task_In in Hin. destruct Hin as [Hin|Hin];
          [discriminate Hin | exact (I4 Hin)].
    + destruct (connectedToServer s) eqn:Hc, (SpectatorViewIP s) as [a|] eqn:Hi;
        cbn in T; injection T as <- <-; rewrite ?Hc, ?Hi.
      all: split; [now rewrite set_task_length|]; split; [|split].
      all: try (intros _; eapply set_task_existsb; [exact N | reflexivity]).
      all: try (intros _; eapply set_task_nonempty; exact N).
      all: intros Hin; apply set_task_In in Hin; destruct Hin as [Hin|Hin];
        try discriminate Hin; try discriminate; try exact (I4 Hin).
    + destruct (SpectatorViewIP s) as [a|] eqn:Hi; [|discriminate T].
      injection T as <- <-. cbn. rewrite Hi.
      split; [now rewrite set_task_length|]. split; [|split].
      * intros _. eapply set_task_existsb; [exact N | reflexivity].
      * intros _. eapply set_task_nonempty; exact N.
      * intros _. discriminate.
    + destruct (connectedToServer s) eqn:Hc; injection T as <- <-; rewrite ?Hc.
      * split; [now rewrite set_task_length|]. split; [|split].
        -- intros _. eapply set_task_existsb; [exact N | reflexivity].
        -- intros _. eapply set_task_nonempty; exact N.
        -- intros Hin. apply set_task_In in Hin. destruct Hin as [Hin|Hin];
             [discriminate Hin | exact (I4 Hin)].
      * split; [now rewrite set_task_length|]. split; [|split].
        -- rewrite andb_false_r. discriminate.
        -- intros _. eapply set_task_nonempty; exact N.
        -- intros Hin. apply set_task_In in Hin. destruct Hin as [Hin|Hin];
             [discriminate Hin | exact (I4 Hin)].
    + injection T as <- <-. cbn.
      split; [rewrite (end_task_length i pcs at_L83 N); now rewrite I1|].
      split; [discriminate|]. split; [discriminate|].
      intros Hin. apply end_task_In in Hin. exact (I4 Hin).
Qed.

Lemma running_supervisor_invariant p : running p -> supervisor_invariant p.
Proof.
  induction 1 as [|e p p' _ IH E].
  - unfold supervisor_invariant. cbn. repeat split; try discriminate; tauto.
  - eapply step_supervisor_invariant; eassumption.
Qed.

(** A task that stands before the call of line 78 has an address to
    hand to it. *)
Lemma task_at_L78_has_address p :
  running p -> In at_L78 (retry_tasks p) -> SpectatorViewIP (globals p) <> None.
Proof. intros R. exact (proj2 (proj2 (proj2 (running_supervisor_invariant p R)))). Qed.

(** A property of the globals that every entry point and every
    statement of a retry task keeps holds of every reachable state. *)
Lemma reachable_invariant (I : Globals -> Prop) :
  I initial ->
  (forall o s s', exec o s = Done s' -> I s -> I s') ->
  (forall pc accept s s' next, task_statement pc accept s = Done (s', next) -> I s -> I s') ->
  forall s, reachable s -> I s.
Proof.
  intros H0 Hexec Htask s [pcs R].
  change (I (globals (mkProcess s pcs))). generalize dependent (mkProcess s pcs).
  clear s pcs. intros p R. induction R as [|e p p' _ IH E]; [exact H0|].
  destruct p as [s pcs]. destruct e as [o|i accept]; cbn [step globals retry_tasks] in E.
  - destruct (is_host_call o); [|injection E as <-; exact IH].
    destruct (exec o s) as [s'|] eqn:X; cbn [bind] in E; [|discriminate].
    injection E as <-. exact (Hexec o s s' X IH).
  - destruct (nth_error pcs i) as [pc|]; [|injection E as <-; exact IH].
    destruct (task_statement pc accept s) as [[s' next]|] eqn:T; cbn [bind] in E;
      [|discriminate].
    injection E as <-. exact (Htask pc accept s s' next T IH).
Qed.

Lemma running_events events p p' :
  running p -> run_events events p = Done p' -> running p'.
Proof.
  revert p; induction events as [|e events IH]; intros p R H; cbn [run_events] in H.
  - injection H as <-. exact R.
  - destruct (step e p) as [p1|] eqn:E; cbn [bind] in H; [|discriminate].
    eapply IH; [|exact H]. eapply running_step; eassumption.
Qed.

Lemma process_after_running events : running (process_after events).
Proof.
  unfold process_after. destruct (run_events events start) as [p|] eqn:E.
  - eapply running_events; [apply running_start | exact E].
  - apply running_start.
Qed.

(** A whole pass of a retry task, as the sequential schedules have it,
    is the task running its statements with nothing in between. *)
Lemma pass_is_uninterrupted accept s k :
  listenTasks s = S k ->
  exists events,
    forallb (fun e => match e with task_runs O _ => true | _ => false end) events = true /\
    run_events events (mkProcess s (at_L75 :: repeat at_L75 k))
    = Done (mkProcess (ListenForServer_task accept s)
              (repeat at_L75 (listenTasks (ListenForServer_task accept s)))).
Proof.
  intros Ht. globals s. cbn in Ht. subst tasks. destruct ip as [a|], cted, accept.
  1, 2, 5, 6: exists (repeat (task_runs 0 true) 4); split; [reflexivity|]; lazy; reflexivity.
  - exists (repeat (task_runs 0 true) 5). split; [reflexivity|]. lazy. reflexivity.
  - exists (repeat (task_runs 0 false) 4). split; [reflexivity|]. lazy. reflexivity.
  - exists (repeat (task_runs 0 true) 3). split; [reflexivity|]. lazy. reflexivity.
  - exists (repeat (task_runs 0 false) 3). split; [reflexivity|]. lazy. reflexivity.
Qed.

Lemma exec_quiescent o s s' : exec o s = Done s' -> quiescent s -> quiescent s'.
Proof.
  unfold quiescent. intros E Q. destruct (is_host_call o) eqn:Ho.
  - eapply running_step with (e := host_call o); [exact Q|].
    cbn [step globals retry_tasks]. rewrite Ho, E. cbn [bind].
    destruct (host_call_link o s s' Ho E) as (L1 & _).
    rewrite <- repeat_app. do 3 f_equal. lia.
  - destruct o; try discriminate Ho. cbn [exec] in E. injection E as <-.
    destruct (listenTasks s) as [|k] eqn:Ht.
    + unfold ListenForServer_task. rewrite Ht. cbn [repeat] in Q |- *. rewrite ?Ht. exact Q.
    + destruct (pass_is_uninterrupted accept s k Ht) as (events & _ & H).
      eapply running_events; [exact Q | exact H].
Qed.

Lemma run_quiescent ops s s' : quiescent s -> run ops s = Done s' -> quiescent s'.
Proof.
  revert s; induction ops as [|o ops IH]; intros s Q H; cbn [run] in H.
  - injection H as <-. exact Q.
  - destruct (exec o s) as [s1|] eqn:E; cbn [bind] in H; [|discriminate].
    eapply IH; [|exact H]. eapply exec_quiescent; eassumption.
Qed.

(** The sequential schedules are schedules of the process. *)
Lemma state_after_reachable ops : reachable (state_after ops).
Proof.
  assert (Q0 : quiescent initial) by exact running_start.
  assert (Q : quiescent (state_after ops)).
  { unfold state_after. destruct (run ops initial) as [s|] eqn:E.
    - exact (run_quiescent ops initial s Q0 E).
    - exact Q0. }
  eexists. exact Q.
Qed.

Lemma running_reachable p : running p -> reachable (globals p).
Proof. destruct p as [s pcs]. intros R. exists pcs. exact R. Qed.

(** ** Connection supervisor: the two flags *)

(** C1, as the claim has it, fails between lines 78 and 83 of a
    successful pass: the address is configured, the retry task has set
    [connectingToServer], the peer has accepted and [connectedToServer]
    is set, and the task has yet to clear [connectingToServer]. *)
Lemma flags_both_set_counterexample :
  running mid_connect /\
  reachable (globals mid_connect) /\
  connectingToServer (globals mid_connect) = true /\
  connectedToServer (globals mid_connect) = true /\
  retry_tasks mid_connect = [at_L81].
Proof.
  split; [apply process_after_running|].
  split; [apply running_reachable, process_after_running|].
  repeat split; reflexivity.
Qed.

Lemma all_at_top_none_mid_pass tasks :
  forallb at_top tasks = true -> existsb mid_pass tasks = false.
Proof.
  induction tasks as [|t tasks IH]; cbn; [reflexivity|].
  unfold at_top at 1. destruct (mid_pass t); cbn; [discriminate | exact IH].
Qed.

(** C1, amended.  With the retry tasks running statement by statement
    between the host's calls, [connectingToServer] and
    [connectedToServer] are both set only while some retry task is
    inside a pass of its loop; whenever every live retry task stands
    at the top of its loop (not yet started, or asleep), and so also
    when none is alive, the two flags are not both set. *)
Theorem flags_both_set_only_mid_pass p :
  running p ->
  (connectingToServer (globals p) && connectedToServer (globals p) = true ->
   existsb mid_pass (retry_tasks p) = true) /\
  (forallb at_top (retry_tasks p) = true ->
   connectingToServer (globals p) && connectedToServer (globals p) = false).
Proof.
  intros R. destruct (running_supervisor_invariant p R) as (_ & I2 & _).
  split; [exact I2|]. intros T. apply all_at_top_none_mid_pass in T.
  destruct (connectingToServer (globals p) && connectedToServer (globals p));
    [|reflexivity].
  rewrite (I2 eq_refl) in T. discriminate T.
Qed.

Lemma flags_both_set_only_mid_pass_witness :
  running refused_once /\
  retry_tasks refused_once = [at_L75] /\
  connectingToServer (globals refused_once) = true /\
  connectingToServer (globals refused_once) && connectedToServer (globals refused_once)
  = false.
Proof.
  assert (R : running refused_once) by apply process_after_running.
  split; [exact R|]. split; [reflexivity|]. split; [reflexivity|].
  exact (proj2 (flags_both_set_only_mid_pass refused_once R) eq_refl).
Defined.

(** ** Pose synchroniser *)

Lemma skipn_length_app {A} (l r : list A) : skipn (List.length l) (l ++ r) = r.
Proof. induction l as [|a l IH]; simpl; [reflexivity | exact IH]. Qed.

Lemma calls_between_same_trace s s' : trace s' = trace s -> calls_between s s' = [].
Proof.
  unfold calls_between. intros ->. rewrite <- (app_nil_r (trace s)) at 2.
  apply skipn_length_app.
Qed.

(** C3.  While [connectedToServer] is clear, [GetPose], for any offset
    and whatever the network would have answered, returns the seven
    fields of the cached pose, makes no call outside the plugin (so no
    send and no receive), and leaves the cached pose as it was; it
    only stores the offset in [additionalOffsetTime]. *)
Theorem GetPose_disconnected nsPast got delay s :
  connectedToServer s = false ->
  let s' := set_additionalOffsetTime (LONGLONG_of_int nsPast) s in
  GetPose nsPast got delay s
  = Done (s',
          mkXMFLOAT3 (SVPose.posX (svPose s)) (SVPose.posY (svPose s))
                     (SVPose.posZ (svPose s)),
          mkXMFLOAT4 (SVPose.rotX (svPose s)) (SVPose.rotY (svPose s))
                     (SVPose.rotZ (svPose s)) (SVPose.rotW (svPose s))) /\
  trace s' = trace s /\
  calls_between s s' = [] /\
  svPose s' = svPose s.
Proof.
  intros Hc s'. split; [|split; [reflexivity|split; [now apply calls_between_same_trace|reflexivity]]].
  unfold GetPose, ListenForData, bind.
  change (connectedToServer (set_additionalOffsetTime (LONGLONG_of_int nsPast) s))
    with (connectedToServer s).
  rewrite Hc. reflexivity.
Qed.

Lemma GetPose_disconnected_witness :
  connectedToServer dropped = false /\
  svPose dropped = sample_pose /\
  GetPose 1000000 (Some SVPose.zero) 16 dropped
  = Done (set_additionalOffsetTime 1000000 dropped,
          mkXMFLOAT3 1065353216 1073741824 1077936128,
          mkXMFLOAT4 0 0 0 1065353216).
Proof.
  split; [reflexivity|]. split; [reflexivity|].
  exact (proj1 (GetPose_disconnected 1000000 (Some SVPose.zero) 16 dropped eq_refl)).
Defined.

(** The state [GetPose] leaves when connected and [tcp.ReceiveData]
    reports failure: the else-branch of [ListenForData]. *)
Lemma receive_failure_branch nsPast delay s :
  connectedToServer s = true -> connectingToServer s = false ->
  let s' := ListenForServer
              (set_connectedToServer false
                 (set_poseBytes None
                    (log (tcp_ReceiveData None)
                       (log (tcp_SendData (sentData s))
                          (set_additionalOffsetTime (LONGLONG_of_int nsPast) s))))) in
  GetPose nsPast None delay s = Done (s', pos_of (svPose s), rot_of (svPose s)) /\
  connectedToServer s' = false /\
  svPose s' = svPose s /\
  listenTasks s' = S (listenTasks s) /\
  trace s' = trace s ++ [tcp_SendData (sentData s); tcp_ReceiveData None; create_task].
Proof.
  intros Hc Hg. globals s. simpl in Hc, Hg. subst cted cting.
  evaluate. rewrite <- !app_assoc. simpl. repeat split; reflexivity.
Qed.

(** Pose queries on an idle plugin change nothing, and there is no
    retry task to run. *)
Lemma idle_stays_idle events p :
  connectedToServer (globals p) = false -> retry_tasks p = [] ->
  forallb is_query_or_task events = true ->
  exists p',
    run_events events p = Done p' /\
    connectedToServer (globals p') = false /\ retry_tasks p' = [] /\
    trace (globals p') = trace (globals p).
Proof.
  revert p; induction events as [|e events IH]; intros [s pcs] Hc Ht He;
    cbn [globals retry_tasks] in *.
  - eexists. split; [reflexivity|]. auto.
  - cbn [forallb] in He. apply andb_true_iff in He. destruct He as [He Hes]. subst pcs.
    assert (S1 : exists s1, step e (mkProcess s []) = Done (mkProcess s1 []) /\
                            connectedToServer s1 = false /\ trace s1 = trace s).
    { destruct e as [o|i accept].
      - destruct o; try discriminate He. exists (set_additionalOffsetTime (LONGLONG_of_int nsPast) s).
        split; [|split; [exact Hc | reflexivity]].
        cbn [step is_host_call exec globals retry_tasks].
        unfold GetPose, ListenForData, bind.
        change (connectedToServer (set_additionalOffsetTime (LONGLONG_of_int nsPast) s))
          with (connectedToServer s).
        rewrite Hc. cbn [fst listenTasks set_additionalOffsetTime].
        rewrite Nat.sub_diag. reflexivity.
      - exists s. split; [|split; [exact Hc | reflexivity]].
        cbn [step retry_tasks]. destruct i; reflexivity. }
    destruct S1 as (s1 & E1 & Hc1 & Ht1).
    destruct (IH (mkProcess s1 []) Hc1 eq_refl Hes) as (p' & R & A & B & C).
    exists p'. split; [|split; [exact A|split; [exact B|]]].
    + cbn [run_events]. rewrite E1. exact R.
    + rewrite C. exact Ht1.
Qed.

(** C6.  A schedule on which a failed receive does not re-arm the
    supervisor.  The retry task has connected and has passed the test
    of line 81, so both flags are set; a query receives [sample_pose];
    the next query's receive fails.  That query returns the cached
    pose and clears [connectedToServer], but its [ListenForServer]
    finds [connectingToServer] set and returns without [create_task].
    The task then runs line 83 and is gone: the address is configured,
    the plugin is not connected, no retry task is alive, and no later
    pose query connects again. *)
Theorem failed_receive_leaves_supervisor_dead :
  (running before_loss /\
   connectedToServer (globals before_loss) = true /\
   connectingToServer (globals before_loss) = true /\
   retry_tasks before_loss = [at_L83]) /\
  (exists s1,
     GetPose 7 None 0 (globals before_loss)
     = Done (s1, mkXMFLOAT3 1065353216 1073741824 1077936128,
                 mkXMFLOAT4 0 0 0 1065353216) /\
     connectedToServer s1 = false /\
     svPose s1 = sample_pose /\
     calls_between (globals before_loss) s1
     = [ tcp_SendData (ClientToServerPacket.mk 42 16 1000000); tcp_ReceiveData None ]) /\
  (running after_loss /\
   SpectatorViewIP (globals after_loss) = Some "127.0.0.1"%string /\
   connectedToServer (globals after_loss) = false /\
   connectingToServer (globals after_loss) = false /\
   retry_tasks after_loss = [] /\
   listenTasks (globals after_loss) = O) /\
  forall events,
    forallb is_query_or_task events = true ->
    exists p,
      run_events events after_loss = Done p /\
      connectedToServer (globals p) = false /\ retry_tasks p = [] /\
      trace (globals p) = trace (globals after_loss).
Proof.
  split; [split; [apply process_after_running | repeat split; reflexivity]|].
  split; [eexists; split; [vm_compute; reflexivity | repeat split; reflexivity]|].
  split; [split; [apply process_after_running | repeat split; reflexivity]|].
  intros events He. apply idle_stays_idle; [reflexivity | reflexivity | exact He].
Qed.

(** C2.  With a connection up and no compositor session ([ci] still
    null), a pose query whose receive succeeds reaches
    [ci->GetFrameDelayMS()] through the null pointer: the call faults
    and returns no pose. *)
Theorem GetPose_faults_without_compositor nsPast p delay s :
  connectedToServer s = true -> ci s = nullptr ->
  completes (GetPose nsPast (Some p) delay s) = false /\
  exists at_fault, GetPose nsPast (Some p) delay s = AccessViolation at_fault.
Proof.
  intros Hc Hn. globals s. simpl in Hc, Hn. subst cted comp.
  split; [reflexivity|]. eexists. evaluate. reflexivity.
Qed.

Lemma GetPose_faults_without_compositor_witness :
  reachable linked_without_compositor /\
  connectedToServer linked_without_compositor = true /\
  ci linked_without_compositor = nullptr /\
  completes (GetPose 0 (Some sample_pose) 0 linked_without_compositor) = false.
Proof.
  split; [apply state_after_reachable|]. split; [reflexivity|]. split; [reflexivity|].
  exact (proj1 (GetPose_faults_without_compositor 0 sample_pose 0
                  linked_without_compositor eq_refl eq_refl)).
Defined.

Ltac trace_diff :=
  unfold transmitted, calls_between; cbn [trace];
  rewrite <- ?app_assoc; rewrite skipn_length_app; simpl.



(** C5.  A query made while connected sends [sentData] as the previous
    exchange left it, before anything of this call is written to it:
    the record on the wire carries the offset of the last query whose
    receive succeeded, not [nsPast].  [nsPast] enters [sentData] only
    after a successful receive, and so travels with the next query. *)
Theorem GetPose_transmits_previous_offset nsPast got delay s :
  connectedToServer s = true -> ci s <> nullptr ->
  exists s' pos rot,
    GetPose nsPast got delay s = Done (s', pos, rot) /\
    transmitted s s' = [sentData s] /\
    sentData s' =
      match got with
      | Some p => ClientToServerPacket.mk (SVPose.sentTime p) delay (LONGLONG_of_int nsPast)
      | None => sentData s
      end.
Proof.
  intros Hc Hn. globals s. simpl in Hc, Hn. subst cted.
  destruct comp as [|a]; [now elim Hn|].
  destruct got as [p|], cting.
  all: do 3 eexists; split; [evaluate; reflexivity|].
  all: split; [trace_diff; reflexivity | reflexivity].
Qed.

Lemma GetPose_transmits_previous_offset_witness :
  connectedToServer linked_with_compositor = true /\
  ci linked_with_compositor <> nullptr /\
  exists s' pos rot,
    GetPose 1000000 (Some sample_pose) 16 linked_with_compositor = Done (s', pos, rot) /\
    map ClientToServerPacket.additionalOffsetTime (transmitted linked_with_compositor s')
    = [0].
Proof.
  split; [reflexivity|]. split; [discriminate|].
  destruct (GetPose_transmits_previous_offset 1000000 (Some sample_pose) 16
              linked_with_compositor eq_refl) as (s' & pos & rot & HG & HT & HS).
  - discriminate.
  - exists s', pos, rot. split; [exact HG|]. rewrite HT. reflexivity.
Defined.

(** ** The cached pose before any record has arrived *)

Lemma no_receipt_filter l :
  forallb (fun c => negb (is_record_receipt c)) l
  = forallb (fun c => negb (is_record_receipt c)) (filter is_network_call l).
Proof.
  induction l as [|c l IH]; simpl; [reflexivity|].
  destruct c; simpl; rewrite IH; try reflexivity.
Qed.

Ltac receipts H :=
  unfold no_record_received in *; cbn [trace] in *;
  rewrite ?forallb_app in H; simpl in H; rewrite ?andb_true_r, ?andb_false_r in H.

Lemma exec_before_first_record o s s' :
  exec o s = Done s' -> no_record_received s' ->
  no_record_received s /\ svPose s' = svPose s.
Proof.
  intros H Hn. destruct (render_side o) eqn:Ho.
  - destruct (render_side_frame o s s' Ho H) as (_ & _ & Hp & _ & Ht).
    split; [|exact Hp]. unfold no_record_received in *.
    rewrite no_receipt_filter in Hn |- *. rewrite <- Ht. exact Hn.
  - globals s. destruct o; try discriminate Ho; clear Ho.
    + destruct cting, cted; evaluate_in H; injection H as <-;
        receipts Hn; (split; [exact Hn|reflexivity]).
    + destruct tasks, ip, cted, accept; evaluate_in H; injection H as <-;
        receipts Hn; (split; [exact Hn|reflexivity]).
    + destruct cting, cted; evaluate_in H; injection H as <-;
        receipts Hn; (split; [exact Hn|reflexivity]).
    + destruct cted, got, comp, cting; evaluate_in H; try discriminate H;
        injection H as <-; receipts Hn; try discriminate Hn;
        (split; [exact Hn|reflexivity]).
Qed.

Lemma task_before_first_record pc accept s s' next :
  task_statement pc accept s = Done (s', next) -> no_record_received s' ->
  no_record_received s /\ svPose s' = svPose s.
Proof.
  intros H Hn. globals s. task_cases H; task_done H;
    unfold no_record_received in *; cbn [trace] in *;
    rewrite ?forallb_app in Hn; simpl in Hn; rewrite ?andb_true_r in Hn;
    (split; [exact Hn | reflexivity]).
Qed.

Lemma pose_zero_before_first_record s :
  reachable s -> no_record_received s -> svPose s = SVPose.zero.
Proof.
  apply (reachable_invariant (fun s => no_record_received s -> svPose s = SVPose.zero)).
  - reflexivity.
  - intros o s0 s' E IH Hn.
    destruct (exec_before_first_record o s0 s' E Hn) as [Hs ->]. now apply IH.
  - intros pc accept s0 s' next T IH Hn.
    destruct (task_before_first_record pc accept s0 s' next T Hn) as [Hs ->]. now apply IH.
Qed.

(** C10.  As long as no [tcp.ReceiveData] has succeeded, a pose query
    that does not itself receive a record (the plugin is not connected,
    or it is and the receive fails) returns position (0,0,0) and
    rotation (0,0,0,0), the zero quaternion, for every offset; and it
    completes. *)
Theorem GetPose_zero_before_first_record nsPast got delay s :
  reachable s -> no_record_received s ->
  (connectedToServer s = true -> got = None) ->
  exists s',
    GetPose nsPast got delay s = Done (s', zero3, zero4) /\
    no_record_received s' /\
    svPose s' = SVPose.zero.
Proof.
  intros Hr Hn Hg. pose proof (pose_zero_before_first_record s Hr Hn) as Hz.
  destruct (connectedToServer s) eqn:Hc.
  - rewrite (Hg eq_refl). clear Hr Hg. globals s. simpl in Hc, Hz. subst cted pose.
    destruct cting; eexists; (split; [evaluate; reflexivity|]);
      unfold no_record_received in *; cbn [trace] in *;
      rewrite ?forallb_app; simpl; rewrite ?andb_true_r; auto.
  - clear Hr Hg. globals s. simpl in Hc, Hz. subst cted pose.
    eexists; (split; [evaluate; reflexivity|]); auto.
Qed.

Lemma GetPose_zero_before_first_record_witness :
  reachable linked_without_compositor /\
  no_record_received linked_without_compositor /\
  exists s',
    GetPose 1000000 None 0 linked_without_compositor = Done (s', zero3, zero4) /\
    no_record_received s' /\
    svPose s' = SVPose.zero.
Proof.
  assert (R : reachable linked_without_compositor) by apply state_after_reachable.
  split; [exact R|]. split; [reflexivity|].
  apply (GetPose_zero_before_first_record 1000000 None 0 linked_without_compositor R);
    reflexivity.
Defined.

(** ** Starting the supervisor with no address *)

Lemma ListenForServer_task_without_address accept s :
  SpectatorViewIP s = None -> connectedToServer s = false -> listenTasks s <> O ->
  ListenForServer_task accept s = set_connectingToServer true s.
Proof.
  intros Hi Hc Ht. globals s. simpl in Hi, Hc, Ht. subst ip cted.
  destruct tasks; [now elim Ht|]. reflexivity.
Qed.

Lemma ListenForServer_task_passes_spinning accepts s :
  SpectatorViewIP s = None -> connectedToServer s = false -> listenTasks s <> O ->
  connectingToServer s = true ->
  ListenForServer_task_passes accepts s = s.
Proof.
  intros Hi Hc Ht Hg. unfold ListenForServer_task_passes.
  induction accepts as [|b accepts IH]; simpl; [reflexivity|].
  rewrite (ListenForServer_task_without_address b s Hi Hc Ht).
  replace (set_connectingToServer true s) with s; [exact IH|].
  globals s. simpl in Hg. subst cting. reflexivity.
Qed.

Lemma ListenForServer_task_passes_without_address accepts s :
  SpectatorViewIP s = None -> connectedToServer s = false -> listenTasks s <> O ->
  accepts <> [] ->
  ListenForServer_task_passes accepts s = set_connectingToServer true s.
Proof.
  intros Hi Hc Ht Ha. destruct accepts as [|a accepts]; [now elim Ha|]. clear Ha.
  change (ListenForServer_task_passes (a :: accepts) s)
    with (ListenForServer_task_passes accepts (ListenForServer_task a s)).
  rewrite (ListenForServer_task_without_address a s Hi Hc Ht).
  apply ListenForServer_task_passes_spinning; assumption || reflexivity.
Qed.

(** C7, as the claim has it, fails in the initial state: no address is
    configured and both flags are clear, yet [ListenForServer] does not
    leave the state as it was (it starts a retry task), and the first
    pass of that task sets [connectingToServer]. *)
Lemma ListenForServer_without_address_counterexample :
  SpectatorViewIP initial = None /\
  connectingToServer initial = false /\ connectedToServer initial = false /\
  ListenForServer initial <> initial /\
  connectingToServer (ListenForServer_task true (ListenForServer initial)) = true.
Proof.
  repeat split; try reflexivity.
  intros H. apply (f_equal listenTasks) in H. discriminate H.
Qed.

(** C7, amended.  With no address configured and both flags clear,
    [ListenForServer] makes no connection attempt and does not touch
    the flags itself, but it does start the retry task; every pass of
    that task sets [connectingToServer], leaves [connectedToServer]
    clear, makes no call outside the plugin and does not return, so the
    task stays alive, connecting in name, until an address arrives. *)
Theorem ListenForServer_without_address s :
  SpectatorViewIP s = None ->
  connectingToServer s = false -> connectedToServer s = false ->
  let s1 := ListenForServer s in
  (connectingToServer s1 = false /\ connectedToServer s1 = false /\
   listenTasks s1 = S (listenTasks s) /\ trace s1 = trace s ++ [create_task]) /\
  forall accepts, accepts <> [] ->
    let s2 := ListenForServer_task_passes accepts s1 in
    connectingToServer s2 = true /\ connectedToServer s2 = false /\
    listenTasks s2 = listenTasks s1 /\ trace s2 = trace s1 /\
    SpectatorViewIP s2 = None.
Proof.
  intros Hi Hg Hc s1.
  assert (E : s1 = set_listenTasks (S (listenTasks s)) (log create_task s)).
  { subst s1. unfold ListenForServer. rewrite Hg, Hc. reflexivity. }
  split.
  - rewrite E. simpl. auto.
  - intros accepts Ha s2. subst s2.
    rewrite ListenForServer_task_passes_without_address; try assumption.
    + rewrite E. simpl. auto.
    + rewrite E. exact Hi.
    + rewrite E. exact Hc.
    + rewrite E. simpl. discriminate.
Qed.

Lemma ListenForServer_without_address_witness :
  SpectatorViewIP initial = None /\
  let s2 := ListenForServer_task_passes [true; false; true] (ListenForServer initial) in
  connectingToServer s2 = true /\ connectedToServer s2 = false /\
  listenTasks s2 = 1%nat /\ trace s2 = [create_task].
Proof.
  split; [reflexivity|].
  destruct (ListenForServer_without_address initial eq_refl eq_refl eq_refl) as [_ H].
  destruct (H [true; false; true]) as (H1 & H2 & H3 & H4 & _); [discriminate|].
  repeat split; assumption.
Defined.

(** ** Resource slots *)

(** C8, as the claim has it, fails once a compositor session exists on
    a bound device: after [ResetSV] the render tick still advances the
    frame provider, initialises the encoder and serves the pending
    photo request, so it is no no-op. *)
Lemma OnRenderEvent_after_ResetSV_counterexample :
  reachable photo_pending /\
  unbound (ResetSV photo_pending) /\
  OnRenderEvent 0 true true (ResetSV photo_pending) <> ResetSV photo_pending /\
  calls_between (ResetSV photo_pending)
                (OnRenderEvent 0 true true (ResetSV photo_pending))
  = [ci_UpdateFrameProvider; ci_InitializeVideoEncoder 2%N true; ci_TakePicture nullptr].
Proof.
  split; [apply state_after_reachable|]. split; [repeat split|]. split.
  - intros H. apply (f_equal takePicture) in H. vm_compute in H. discriminate H.
  - reflexivity.
Qed.

(** C8, amended.  [ResetSV] leaves all four slots null and the lock
    free; at each point between its statements, where some slots are
    cleared and others not yet, [renderlock] is held.  A render tick
    after it leaves the four slots null and asks for no video-frame
    encode.  The tick is a no-op when there is no compositor session or
    no device; otherwise it advances the frame provider and, when the
    video encoder is not yet initialised, calls
    [InitializeVideoEncoder] and keeps its answer in
    [videoInitialized] (what it does with a pending photo request is
    left aside). *)
Theorem ResetSV_unbinds s :
  unbound (ResetSV s) /\
  renderlock (ResetSV s) = false /\
  map (fun k => renderlock (run_statements (firstn k ResetSV_statements) s))
      [1; 2; 3; 4; 5]%nat
  = [true; true; true; true; true] /\
  forall eventID encoderOk frameReady,
    let s' := OnRenderEvent eventID encoderOk frameReady (ResetSV s) in
    unbound s' /\
    existsb is_RecordFrameAsync (calls_between (ResetSV s) s') = false /\
    if is_null (ci s) || is_null (g_pD3D11Device s)
    then s' = ResetSV s
    else
      filter (fun c => negb (is_TakePicture c)) (calls_between (ResetSV s) s')
      = ci_UpdateFrameProvider
        :: (if videoInitialized s then []
            else [ci_InitializeVideoEncoder (g_pD3D11Device s) encoderOk]) /\
      videoInitialized s' = videoInitialized s || encoderOk.
Proof.
  split; [repeat split|]. split; [reflexivity|]. split; [reflexivity|].
  intros eventID encoderOk frameReady s'. subst s'. globals s.
  destruct comp, dev, vinit, pic, rec, encoderOk, frameReady;
    unfold calls_between;
    lazy -[app skipn List.length existsb filter is_RecordFrameAsync is_TakePicture];
    rewrite <- ?app_assoc; rewrite ?skipn_length_app, ?skipn_all;
    repeat split; reflexivity.
Qed.

(** ** Texture binding *)

(** C9.  First writer wins.  On an unbound output slot, binding
    texture [A] and then texture [B] leaves [g_outputTexture] at [A];
    the second call changes nothing and reports success.  The same
    holds of [SetVideoRenderTexture] and [g_videoTexture]. *)
Theorem SetRenderTexture_first_writer_wins A B s :
  A <> nullptr ->
  (g_outputTexture s = nullptr ->
   let r1 := SetOutputRenderTexture A s in
   let r2 := SetOutputRenderTexture B (fst r1) in
   g_outputTexture (fst r1) = A /\ snd r1 = true /\
   fst r2 = fst r1 /\ snd r2 = true /\ g_outputTexture (fst r2) = A) /\
  (g_videoTexture s = nullptr ->
   let r1 := SetVideoRenderTexture A s in
   let r2 := SetVideoRenderTexture B (fst r1) in
   g_videoTexture (fst r1) = A /\ snd r1 = true /\
   fst r2 = fst r1 /\ snd r2 = true /\ g_videoTexture (fst r2) = A).
Proof.
  intros HA. destruct A as [|a]; [now elim HA|]. clear HA.
  globals s. split; intros Hs; simpl in Hs; subst; evaluate; repeat split; reflexivity.
Qed.

Lemma SetRenderTexture_first_writer_wins_witness :
  g_outputTexture initial = nullptr /\ g_videoTexture initial = nullptr /\
  g_outputTexture (fst (SetOutputRenderTexture 5%N (fst (SetOutputRenderTexture 4%N initial))))
  = 4%N /\
  g_videoTexture (fst (SetVideoRenderTexture 5%N (fst (SetVideoRenderTexture 4%N initial))))
  = 4%N.
Proof.
  split; [reflexivity|]. split; [reflexivity|].
  destruct (SetRenderTexture_first_writer_wins 4%N 5%N initial) as [Ho Hv];
    [discriminate|].
  split.
  - exact (proj2 (proj2 (proj2 (proj2 (Ho eq_refl))))).
  - exact (proj2 (proj2 (proj2 (proj2 (Hv eq_refl))))).
Defined.

(** A slot that is already bound keeps its texture whatever is offered,
    and the call reports success. *)
Lemma SetOutputRenderTexture_bound tex s :
  g_outputTexture s <> nullptr -> SetOutputRenderTexture tex s = (s, true).
Proof.
  intros Hs. globals s. simpl in Hs. destruct otex; [now elim Hs|]. reflexivity.
Qed.

Lemma SetVideoRenderTexture_bound tex s :
  g_videoTexture s <> nullptr -> SetVideoRenderTexture tex s = (s, true).
Proof.
  intros Hs. globals s. simpl in Hs. destruct vtex; [now elim Hs|]. reflexivity.
Qed.

(** * Further properties of the plugin *)

Lemma exec_capture_invariant o s s' :
  exec o s = Done s' -> capture_invariant s -> capture_invariant s'.
Proof.
  unfold capture_invariant. intros H (I1 & I2 & I3). globals s.
  simpl in I1, I2, I3. destruct o; op_cases H; step_done H;
    intuition (try discriminate; try congruence).
Qed.

Lemma exec_trace_invariant o s s' :
  exec o s = Done s' -> trace_invariant s -> trace_invariant s'.
Proof.
  unfold trace_invariant, last_record, exchange_of.
  intros H (I1 & I2 & I3 & I4 & I5 & I6 & I7 & I8). globals s.
  simpl in I1, I2, I3, I4, I5, I6, I7, I8.
  destruct o; op_cases H; step_done H; trace_norm;
    rewrite ?I6, ?I8, ?app_nil_r; simpl;
    intuition (try discriminate; try congruence; try lia).
Qed.

Lemma task_capture_invariant pc accept s s' next :
  task_statement pc accept s = Done (s', next) -> capture_invariant s -> capture_invariant s'.
Proof.
  unfold capture_invariant. intros H (I1 & I2 & I3). globals s.
  simpl in I1, I2, I3. task_cases H; task_done H; auto.
Qed.

Lemma task_trace_invariant pc accept s s' next :
  task_statement pc accept s = Done (s', next) -> trace_invariant s -> trace_invariant s'.
Proof.
  unfold trace_invariant, last_record, exchange_of.
  intros H (I1 & I2 & I3 & I4 & I5 & I6 & I7 & I8). globals s.
  simpl in I1, I2, I3, I4, I5, I6, I7, I8.
  task_cases H; task_done H; trace_norm;
    rewrite ?I6, ?I8, ?app_nil_r; simpl;
    intuition (try discriminate; try congruence; try lia).
Qed.

Lemma reachable_capture_invariant s : reachable s -> capture_invariant s.
Proof.
  apply (reachable_invariant capture_invariant).
  - unfold capture_invariant. simpl. intuition (try discriminate; try congruence).
  - intros o s0 s' E IH. eapply exec_capture_invariant; eassumption.
  - intros pc accept s0 s' next T IH. eapply task_capture_invariant; eassumption.
Qed.

Lemma reachable_trace_invariant s : reachable s -> trace_invariant s.
Proof.
  apply (reachable_invariant trace_invariant).
  - unfold trace_invariant. simpl. intuition (try discriminate; try congruence).
  - intros o s0 s' E IH. eapply exec_trace_invariant; eassumption.
  - intros pc accept s0 s' next T IH. eapply task_trace_invariant; eassumption.
Qed.

(** ** Connection supervisor *)

(** X1.  However the statements of the retry tasks fall between the
    host's calls, whenever [connectingToServer] is set a retry task is
    alive. *)
Theorem connecting_has_live_task p :
  running p -> connectingToServer (globals p) = true -> retry_tasks p <> [].
Proof.
  intros R. exact (proj1 (proj2 (proj2 (running_supervisor_invariant p R)))).
Qed.

Lemma connecting_has_live_task_witness :
  running mid_connect /\ connectingToServer (globals mid_connect) = true /\
  retry_tasks mid_connect <> [].
Proof.
  assert (R : running mid_connect) by apply process_after_running.
  split; [exact R|]. split; [reflexivity|].
  exact (connecting_has_live_task mid_connect R eq_refl).
Defined.

(** X2.  Before an address is configured the plugin is not connected
    and has made no network call at all: no connect, no send, no
    receive. *)
Theorem no_network_call_without_address s :
  reachable s -> SpectatorViewIP s = None ->
  connectedToServer s = false /\ filter is_network_call (trace s) = [].
Proof.
  intros Hr Hi. destruct (reachable_trace_invariant s Hr) as (I1 & I2 & _).
  split; [|now apply I1].
  destruct (connectedToServer s); [|reflexivity]. now elim (I2 eq_refl).
Qed.

Lemma no_network_call_without_address_witness :
  reachable recording /\ SpectatorViewIP recording = None /\
  connectedToServer recording = false /\ filter is_network_call (trace recording) = [].
Proof.
  assert (R : reachable recording) by apply state_after_reachable.
  split; [exact R|]. split; [reflexivity|].
  exact (no_network_call_without_address recording R eq_refl).
Defined.

(** ** Pose synchroniser *)

(** X3.  The cached pose is always the record of the most recent
    successful receive (all zero before the first), and the [sentTime]
    of the record that will go out next is that record's [sentTime]. *)
Theorem cached_pose_is_last_record s :
  reachable s ->
  svPose s = last_record (trace s) /\
  ClientToServerPacket.sentTime (sentData s) = SVPose.sentTime (last_record (trace s)).
Proof.
  intros Hr. destruct (reachable_trace_invariant s Hr) as (_ & _ & _ & I4 & I5 & _).
  split; [exact I4|]. rewrite <- I4. exact I5.
Qed.

Lemma cached_pose_is_last_record_witness :
  reachable synced /\ last_record (trace synced) = sample_pose /\
  svPose synced = sample_pose /\
  ClientToServerPacket.sentTime (sentData synced) = 42.
Proof.
  assert (R : reachable synced) by apply state_after_reachable.
  split; [exact R|]. split; [reflexivity|].
  destruct (cached_pose_is_last_record synced R) as [H1 H2].
  split; [exact H1 | exact H2].
Defined.

(** X4.  On the wire every send is answered by one receive before the
    next send: between operations no exchange is outstanding. *)
Theorem exchanges_are_paired s :
  reachable s -> exchange_of (trace s) = ExchangeIdle.
Proof.
  intros Hr. destruct (reachable_trace_invariant s Hr) as (_ & _ & _ & _ & _ & I6 & _).
  exact I6.
Qed.

Lemma exchanges_are_paired_witness :
  reachable synced /\
  filter is_network_call (trace synced)
  = [ tcp_CreateClientListener "127.0.0.1" true;
      tcp_SendData ClientToServerPacket.zero;
      tcp_ReceiveData (Some sample_pose) ] /\
  exchange_of (trace synced) = ExchangeIdle.
Proof.
  assert (R : reachable synced) by apply state_after_reachable.
  split; [exact R|]. split; [reflexivity|].
  exact (exchanges_are_paired synced R).
Defined.

(** ** Render-event pipeline *)

(** X6.  Recording is only ever active with the video encoder
    initialised, and the encoder is only ever initialised with a
    compositor session and a graphics device in place. *)
Theorem recording_needs_encoder s :
  reachable s ->
  (isRecording s = true -> videoInitialized s = true) /\
  (videoInitialized s = true -> ci s <> nullptr /\ g_pD3D11Device s <> nullptr).
Proof.
  intros Hr. exact (proj2 (reachable_capture_invariant s Hr)).
Qed.

Lemma recording_needs_encoder_witness :
  reachable recording /\ isRecording recording = true /\
  videoInitialized recording = true /\ ci recording <> nullptr.
Proof.
  assert (R : reachable recording) by apply state_after_reachable.
  split; [exact R|]. split; [reflexivity|].
  destruct (recording_needs_encoder recording R) as [H1 H2].
  split; [exact (H1 eq_refl) | exact (proj1 (H2 (H1 eq_refl)))].
Defined.

(** X7.  The video encoder is initialised successfully at most once:
    the calls to [ci->InitializeVideoEncoder] that answered [true]
    number one when [videoInitialized] is set and none when it is not
    (failed attempts are repeated tick after tick). *)
Theorem encoder_initialised_once s :
  reachable s ->
  List.length (filter is_encoder_success (trace s))
  = if videoInitialized s then 1%nat else 0%nat.
Proof.
  intros Hr.
  destruct (reachable_trace_invariant s Hr) as (_ & _ & _ & _ & _ & _ & I7 & _).
  exact I7.
Qed.

Lemma encoder_initialised_once_witness :
  reachable recording /\ videoInitialized recording = true /\
  List.length (filter is_encoder_success (trace recording)) = 1%nat.
Proof.
  assert (R : reachable recording) by apply state_after_reachable.
  split; [exact R|]. split; [reflexivity|].
  exact (encoder_initialised_once recording R).
Defined.

(** X8.  [ci->RecordFrameAsync] is never handed a null texture. *)
Theorem never_records_null_frame s :
  reachable s -> existsb records_null_frame (trace s) = false.
Proof.
  intros Hr.
  destruct (reachable_trace_invariant s Hr) as (_ & _ & _ & _ & _ & _ & _ & I8).
  exact I8.
Qed.

Lemma never_records_null_frame_witness :
  reachable recording /\
  existsb is_RecordFrameAsync (trace recording) = true /\
  existsb records_null_frame (trace recording) = false.
Proof.
  assert (R : reachable recording) by apply state_after_reachable.
  split; [exact R|]. split; [reflexivity|].
  exact (never_records_null_frame recording R).
Defined.

(** X9.  Without a compositor session the plugin makes no call to the
    compositor: every [ci->...] in a run that did not fault came after
    the session was created. *)
Theorem no_compositor_call_without_session s :
  reachable s -> ci s = nullptr -> filter is_compositor_call (trace s) = [].
Proof.
  intros Hr Hn. destruct (reachable_trace_invariant s Hr) as (_ & _ & I3 & _).
  now apply I3.
Qed.

Lemma no_compositor_call_without_session_witness :
  reachable linked_without_compositor /\ ci linked_without_compositor = nullptr /\
  filter is_compositor_call (trace linked_without_compositor) = [].
Proof.
  assert (R : reachable linked_without_compositor) by apply state_after_reachable.
  split; [exact R|]. split; [reflexivity|].
  exact (no_compositor_call_without_session linked_without_compositor R eq_refl).
Defined.

(** ** Retry until the peer accepts *)

Lemma refused_pass addr k s :
  SpectatorViewIP s = Some addr -> connectedToServer s = false -> listenTasks s = S k ->
  let s' := ListenForServer_task false s in
  SpectatorViewIP s' = Some addr /\ connectedToServer s' = false /\
  listenTasks s' = S k /\
  trace s' = trace s ++ [tcp_CreateClientListener addr false].
Proof.
  intros Hi Hc Ht. globals s. simpl in Hi, Hc, Ht. subst. evaluate_state.
  repeat split; reflexivity.
Qed.

Lemma accepted_pass addr k s :
  SpectatorViewIP s = Some addr -> connectedToServer s = false -> listenTasks s = S k ->
  let s' := ListenForServer_task true s in
  connectedToServer s' = true /\ connectingToServer s' = false /\
  listenTasks s' = k /\
  trace s' = trace s ++ [tcp_CreateClientListener addr true].
Proof.
  intros Hi Hc Ht. globals s. simpl in Hi, Hc, Ht. subst. evaluate_state.
  repeat split; reflexivity.
Qed.

Lemma passes_until_accepted addr k n s :
  SpectatorViewIP s = Some addr -> connectedToServer s = false -> listenTasks s = S k ->
  let s' := ListenForServer_task_passes (repeat false n ++ [true]) s in
  connectedToServer s' = true /\ connectingToServer s' = false /\
  listenTasks s' = k /\
  trace s' = trace s ++ repeat (tcp_CreateClientListener addr false) n
                     ++ [tcp_CreateClientListener addr true].
Proof.
  revert s. induction n as [|n IH]; intros s Hi Hc Ht.
  - exact (accepted_pass addr k s Hi Hc Ht).
  - destruct (refused_pass addr k s Hi Hc Ht) as (Hi' & Hc' & Ht' & Htr).
    specialize (IH (ListenForServer_task false s) Hi' Hc' Ht').
    destruct IH as (I1 & I2 & I3 & I4).
    change (ListenForServer_task_passes (repeat false (S n) ++ [true]) s)
      with (ListenForServer_task_passes (repeat false n ++ [true])
              (ListenForServer_task false s)).
    cbv zeta. repeat split; try assumption.
    rewrite I4, Htr, <- app_assoc. reflexivity.
Qed.

(** X10.  From an idle, disconnected plugin, configuring the address
    and letting the peer refuse [n] times and then accept ends
    connected, with [connectingToServer] clear and the retry task
    gone; the plugin made [n + 1] connect attempts, all to the
    configured address, and no other call. *)
Theorem retry_until_accepted n addr s :
  connectingToServer s = false -> connectedToServer s = false ->
  let s' := ListenForServer_task_passes (repeat false n ++ [true])
              (SetSpectatorViewIP addr s) in
  connectedToServer s' = true /\ connectingToServer s' = false /\
  listenTasks s' = listenTasks s /\
  calls_between s s'
  = create_task :: repeat (tcp_CreateClientListener addr false) n
                ++ [tcp_CreateClientListener addr true].
Proof.
  intros Hg Hc.
  assert (H0 : SpectatorViewIP (SetSpectatorViewIP addr s) = Some addr /\
               connectedToServer (SetSpectatorViewIP addr s) = false /\
               listenTasks (SetSpectatorViewIP addr s) = S (listenTasks s) /\
               trace (SetSpectatorViewIP addr s) = trace s ++ [create_task]).
  { globals s. simpl in Hg, Hc. subst. evaluate_state. repeat split; reflexivity. }
  destruct H0 as (Hi & Hc' & Ht & Htr).
  destruct (passes_until_accepted addr (listenTasks s) n _ Hi Hc' Ht) as (I1 & I2 & I3 & I4).
  cbv zeta. repeat split; try assumption.
  unfold calls_between. rewrite I4, Htr, <- app_assoc. apply skipn_length_app.
Qed.

Lemma retry_until_accepted_witness :
  let s' := ListenForServer_task_passes [false; false; false; true]
              (SetSpectatorViewIP "127.0.0.1:9999" initial) in
  connectedToServer s' = true /\ connectingToServer s' = false /\
  listenTasks s' = 0%nat.
Proof.
  destruct (retry_until_accepted 3 "127.0.0.1:9999" initial eq_refl eq_refl)
    as (H1 & H2 & H3 & _).
  repeat split; assumption.
Defined.

(** ** Two queries in a row *)

(** X11.  After a query with offset [n] that received the record [p],
    the next query, whatever its own offset [m], puts on the wire the
    record holding [p]'s [sentTime], the frame delay read during the
    first query, and the offset [n]. *)
Theorem consecutive_queries n m p got d1 d2 s :
  connectedToServer s = true -> ci s <> nullptr ->
  exists s1 pos1 rot1 s2 pos2 rot2,
    GetPose n (Some p) d1 s = Done (s1, pos1, rot1) /\
    GetPose m got d2 s1 = Done (s2, pos2, rot2) /\
    transmitted s1 s2 = [ClientToServerPacket.mk (SVPose.sentTime p) d1 (LONGLONG_of_int n)].
Proof.
  intros Hc Hn. globals s. simpl in Hc, Hn. subst cted.
  destruct comp as [|a]; [now elim Hn|]. clear Hn.
  destruct got as [q|], cting.
  all: do 6 eexists; split; [evaluate; reflexivity|].
  all: split; [evaluate; reflexivity|].
  all: unfold transmitted, calls_between; cbn [trace];
    match goal with
    | |- context [skipn (List.length ?before) _] => generalize before; intros before'
    end;
    rewrite <- ?app_assoc; rewrite skipn_length_app; reflexivity.
Qed.

Lemma consecutive_queries_witness :
  connectedToServer linked_with_compositor = true /\
  ci linked_with_compositor <> nullptr /\
  exists s1 pos1 rot1 s2 pos2 rot2,
    GetPose 5 (Some sample_pose) 16 linked_with_compositor = Done (s1, pos1, rot1) /\
    GetPose 7 None 0 s1 = Done (s2, pos2, rot2) /\
    transmitted s1 s2 = [ClientToServerPacket.mk 42 16 5].
Proof.
  split; [reflexivity|]. split; [discriminate|].
  apply (consecutive_queries 5 7 sample_pose None 16 0 linked_with_compositor);
    [reflexivity | discriminate].
Defined.

(** ** Photo requests *)

Lemma skipn_length_plus {A} (l r : list A) n :
  skipn (List.length l + n) (l ++ r) = skipn n r.
Proof. induction l as [|a l IH]; simpl; [reflexivity | exact IH]. Qed.

Ltac calls_norm :=
  unfold transmitted, calls_between; cbn [trace];
  rewrite <- ?app_assoc; rewrite ?length_app;
  rewrite ?skipn_length_plus, ?skipn_length_app, ?skipn_all; simpl.


(** X12.  A photo request is served once.  With a session and a device
    in place, however often [TakePicture] was called before the tick,
    the next render tick calls [ci->TakePicture] once, on the bound
    output texture, and clears the request; the tick after it takes no
    picture. *)
Theorem photo_request_served_once id1 e1 f1 id2 e2 f2 s :
  ci s <> nullptr -> g_pD3D11Device s <> nullptr ->
  let s1 := OnRenderEvent id1 e1 f1 (TakePicture (TakePicture s)) in
  let s2 := OnRenderEvent id2 e2 f2 s1 in
  takePicture s1 = false /\
  filter is_TakePicture (calls_between s s1) = [ci_TakePicture (g_outputTexture s)] /\
  filter is_TakePicture (calls_between s1 s2) = [].
Proof.
  intros Hn Hd. globals s. simpl in Hn, Hd.
  destruct comp as [|a]; [now elim Hn|]. destruct dev as [|b]; [now elim Hd|].
  clear Hn Hd.
  destruct vinit, pic, rec, vtex, e1, f1, e2, f2; unfold calls_between;
    lazy -[app skipn List.length filter is_TakePicture];
    calls_norm; repeat split; reflexivity.
Qed.

Lemma photo_request_served_once_witness :
  ci with_compositor <> nullptr /\ g_pD3D11Device with_compositor <> nullptr /\
  filter is_TakePicture
    (calls_between with_compositor
       (OnRenderEvent 0 true false (TakePicture (TakePicture with_compositor))))
  = [ci_TakePicture 4%N].
Proof.
  split; [discriminate|]. split; [discriminate|].
  destruct (photo_request_served_once 0 true false 0 true false with_compositor)
    as (_ & H & _); [discriminate | discriminate | exact H].
Defined.

(** ** What survives every operation *)

Lemma exec_session_kept o s s' :
  exec o s = Done s' ->
  (ci s <> nullptr -> ci s' = ci s) /\
  (g_pD3D11Device s <> nullptr -> g_pD3D11Device s' <> nullptr) /\
  (videoInitialized s = true -> videoInitialized s' = true) /\
  (SpectatorViewIP s <> None -> SpectatorViewIP s' <> None).
Proof.
  intros H. globals s. destruct o; op_cases H; step_done H;
    intuition (try discriminate; try congruence).
Qed.

(** X13.  Nothing releases what was set up: over any run that does not
    fault, a compositor session once created stays the same object
    (neither [ResetSV] nor [UnityPluginUnload] nor a second
    [InitializeFrameProvider] replaces it), a bound device stays bound,
    an initialised encoder stays initialised, and a configured address
    stays configured. *)
Theorem session_is_never_released ops s s' :
  run ops s = Done s' ->
  (ci s <> nullptr -> ci s' = ci s) /\
  (g_pD3D11Device s <> nullptr -> g_pD3D11Device s' <> nullptr) /\
  (videoInitialized s = true -> videoInitialized s' = true) /\
  (SpectatorViewIP s <> None -> SpectatorViewIP s' <> None).
Proof.
  revert s. induction ops as [|o ops IH]; intros s H; simpl in H.
  - injection H as <-. auto.
  - destruct (exec o s) as [s1|] eqn:E; simpl in H; [|discriminate].
    destruct (exec_session_kept o s s1 E) as (A1 & A2 & A3 & A4).
    destruct (IH s1 H) as (B1 & B2 & B3 & B4).
    repeat split; intros Hs.
    + rewrite B1; auto. rewrite A1; auto.
    + auto.
    + auto.
    + auto.
Qed.

Lemma session_is_never_released_witness :
  run [op_ResetSV; op_InitializeFrameProvider 9%N true; op_UnityPluginUnload] recording
  = Done (state_after (recording_ops ++
            [op_ResetSV; op_InitializeFrameProvider 9%N true; op_UnityPluginUnload])) /\
  ci recording = 8%N /\
  ci (state_after (recording_ops ++
        [op_ResetSV; op_InitializeFrameProvider 9%N true; op_UnityPluginUnload])) = 8%N.
Proof.
  assert (E : run [op_ResetSV; op_InitializeFrameProvider 9%N true; op_UnityPluginUnload]
                recording
              = Done (state_after (recording_ops ++
                        [op_ResetSV; op_InitializeFrameProvider 9%N true;
                         op_UnityPluginUnload]))) by (vm_compute; reflexivity).
  split; [exact E|]. split; [reflexivity|].
  destruct (session_is_never_released _ _ _ E) as (H & _).
  rewrite H; [reflexivity | discriminate].
Defined.

(** ** The two sides keep to themselves *)

Lemma exec_link_side_frame o s s' :
  link_side o = true -> exec o s = Done s' ->
  (g_colorTexture s' = g_colorTexture s /\ g_UnityColorSRV s' = g_UnityColorSRV s /\
   g_outputTexture s' = g_outputTexture s /\ g_videoTexture s' = g_videoTexture s) /\
  (ci s' = ci s /\ g_pD3D11Device s' = g_pD3D11Device s) /\
  (isRecording s' = isRecording s /\ videoInitialized s' = videoInitialized s /\
   takePicture s' = takePicture s) /\
  filter drives_compositor (trace s') = filter drives_compositor (trace s).
Proof.
  intros Ho H. globals s. destruct o; try discriminate Ho; clear Ho;
    op_cases H; step_done H; trace_norm; rewrite ?app_nil_r; repeat split; reflexivity.
Qed.

(** X14.  The link never touches the render side: a run of supervisor
    starts, retry passes, address changes and pose queries leaves the
    four resource slots, the session and device pointers and the three
    capture flags as they were, and calls nothing on the compositor
    but [GetFrameDelayMS]. *)
Theorem link_side_leaves_render_state ops s s' :
  forallb link_side ops = true -> run ops s = Done s' ->
  (g_colorTexture s' = g_colorTexture s /\ g_UnityColorSRV s' = g_UnityColorSRV s /\
   g_outputTexture s' = g_outputTexture s /\ g_videoTexture s' = g_videoTexture s) /\
  (ci s' = ci s /\ g_pD3D11Device s' = g_pD3D11Device s) /\
  (isRecording s' = isRecording s /\ videoInitialized s' = videoInitialized s /\
   takePicture s' = takePicture s) /\
  filter drives_compositor (trace s') = filter drives_compositor (trace s).
Proof.
  revert s. induction ops as [|o ops IH]; intros s Ho H; simpl in Ho, H.
  - injection H as <-. repeat split; reflexivity.
  - apply andb_true_iff in Ho. destruct Ho as [Ho Hops].
    destruct (exec o s) as [s1|] eqn:E; simpl in H; [|discriminate].
    destruct (exec_link_side_frame o s s1 Ho E)
      as ((A1 & A2 & A3 & A4) & (A5 & A6) & (A7 & A8 & A9) & A10).
    destruct (IH s1 Hops H)
      as ((B1 & B2 & B3 & B4) & (B5 & B6) & (B7 & B8 & B9) & B10).
    repeat split; congruence.
Qed.

Lemma link_side_leaves_render_state_witness :
  run [op_SetSpectatorViewIP "127.0.0.1"; op_ListenForServer_task true;
       op_GetPose 1000000 (Some sample_pose) 16] with_compositor = Done synced /\
  g_outputTexture synced = 4%N /\
  filter drives_compositor (trace synced) = filter drives_compositor (trace with_compositor).
Proof.
  assert (E : run [op_SetSpectatorViewIP "127.0.0.1"; op_ListenForServer_task true;
                   op_GetPose 1000000 (Some sample_pose) 16] with_compositor
              = Done synced) by (vm_compute; reflexivity).
  split; [exact E|].
  destruct (link_side_leaves_render_state
              [op_SetSpectatorViewIP "127.0.0.1"; op_ListenForServer_task true;
               op_GetPose 1000000 (Some sample_pose) 16]
              with_compositor synced eq_refl E) as ((_ & _ & H3 & _) & _ & _ & H4).
  split; [rewrite H3; reflexivity | exact H4].
Defined.

(** X15.  The render side never touches the link: a run of render-side
    entry points (render ticks, capture controls, device events,
    resets, texture binding, frame-provider calls) leaves the two
    connection flags, the cached pose and the outgoing record as they
    were and makes no network call. *)
Theorem render_side_leaves_link ops s s' :
  forallb render_side ops = true -> run ops s = Done s' ->
  connectingToServer s' = connectingToServer s /\
  connectedToServer s' = connectedToServer s /\
  svPose s' = svPose s /\
  sentData s' = sentData s /\
  filter is_network_call (trace s') = filter is_network_call (trace s).
Proof.
  revert s. induction ops as [|o ops IH]; intros s Ho H; simpl in Ho, H.
  - injection H as <-. repeat split; reflexivity.
  - apply andb_true_iff in Ho. destruct Ho as [Ho Hops].
    destruct (exec o s) as [s1|] eqn:E; simpl in H; [|discriminate].
    destruct (render_side_frame o s s1 Ho E) as (A1 & A2 & A3 & A4 & A5).
    destruct (IH s1 Hops H) as (B1 & B2 & B3 & B4 & B5).
    repeat split; congruence.
Qed.

Lemma render_side_leaves_link_witness :
  run [op_OnRenderEvent 0 true false; op_StartRecording; op_OnRenderEvent 0 true true;
       op_ResetSV] synced
  = Done (ResetSV (OnRenderEvent 0 true true
                     (StartRecording (OnRenderEvent 0 true false synced)))) /\
  svPose (ResetSV (OnRenderEvent 0 true true
                     (StartRecording (OnRenderEvent 0 true false synced)))) = sample_pose.
Proof.
  assert (E : run [op_OnRenderEvent 0 true false; op_StartRecording;
                   op_OnRenderEvent 0 true true; op_ResetSV] synced
              = Done (ResetSV (OnRenderEvent 0 true true
                                 (StartRecording (OnRenderEvent 0 true false synced)))))
    by (vm_compute; reflexivity).
  split; [exact E|].
  destruct (render_side_leaves_link
              [op_OnRenderEvent 0 true false; op_StartRecording;
               op_OnRenderEvent 0 true true; op_ResetSV]
              synced _ eq_refl E) as (_ & _ & H & _).
  rewrite H. reflexivity.
Defined.

(** ** Binding, failing and resetting *)

(** X16.  When the texture is created but its shader-resource view is
    not, [CreateUnityColorTexture] reports failure, assigns nothing to
    [srv] and leaves the new texture in [g_colorTexture] with no view;
    the next call does not reuse it but creates a texture again and
    overwrites the slot. *)
Theorem color_texture_recreated_after_failed_view t1 t2 v2 s :
  g_pD3D11Device s <> nullptr -> g_UnityColorSRV s = nullptr ->
  t1 <> nullptr -> t2 <> nullptr -> v2 <> nullptr ->
  let r1 := CreateUnityColorTexture t1 nullptr s in
  let s1 := fst (fst r1) in
  let r2 := CreateUnityColorTexture t2 v2 s1 in
  let s2 := fst (fst r2) in
  (snd (fst r1) = false /\ snd r1 = None /\
   g_colorTexture s1 = t1 /\ g_UnityColorSRV s1 = nullptr) /\
  (snd (fst r2) = true /\ snd r2 = Some v2 /\
   g_colorTexture s2 = t2 /\ g_UnityColorSRV s2 = v2) /\
  calls_between s s2
  = [ DirectXHelper_CreateTexture (g_pD3D11Device s) t1;
      DirectXHelper_CreateShaderResourceView (g_pD3D11Device s) t1 nullptr;
      DirectXHelper_CreateTexture (g_pD3D11Device s) t2;
      DirectXHelper_CreateShaderResourceView (g_pD3D11Device s) t2 v2 ].
Proof.
  intros Hd Hs H1 H2 H3. globals s. simpl in Hd, Hs. subst srv.
  destruct dev as [|d]; [now elim Hd|]. destruct t1 as [|a1]; [now elim H1|].
  destruct t2 as [|a2]; [now elim H2|]. destruct v2 as [|b2]; [now elim H3|].
  unfold calls_between; lazy -[app skipn List.length]; calls_norm.
  repeat split; reflexivity.
Qed.

Lemma color_texture_recreated_after_failed_view_witness :
  g_pD3D11Device (state_after [op_UnityPluginLoad kUnityGfxRendererD3D11 1%N 2%N 3%N])
    <> nullptr /\
  let s := state_after [op_UnityPluginLoad kUnityGfxRendererD3D11 1%N 2%N 3%N] in
  g_colorTexture (fst (fst (CreateUnityColorTexture 6%N nullptr s))) = 6%N /\
  g_colorTexture
    (fst (fst (CreateUnityColorTexture 7%N 8%N
                 (fst (fst (CreateUnityColorTexture 6%N nullptr s)))))) = 7%N.
Proof.
  split; [discriminate|].
  destruct (color_texture_recreated_after_failed_view 6%N 7%N 8%N
              (state_after [op_UnityPluginLoad kUnityGfxRendererD3D11 1%N 2%N 3%N]))
    as ((_ & _ & H1 & _) & (_ & _ & H2 & _) & _);
    try discriminate; try reflexivity.
  split; [exact H1 | exact H2].
Defined.

(** X17.  [ResetSV] takes the plugin back to unbound for the host as
    well: after it [InitializeFrameProvider] refuses (returns [false],
    calls nothing, changes nothing) until the textures are bound
    again, a texture offered to the output slot is accepted even
    though another was bound before, and a second [ResetSV] changes
    nothing. *)
Theorem ResetSV_reopens_slots A B fresh initOk s :
  B <> nullptr ->
  let s1 := ResetSV (fst (SetOutputRenderTexture A s)) in
  InitializeFrameProvider fresh initOk s1 = (s1, false) /\
  g_outputTexture (fst (SetOutputRenderTexture B s1)) = B /\
  snd (SetOutputRenderTexture B s1) = true /\
  ResetSV s1 = s1.
Proof.
  intros HB. destruct B as [|b]; [now elim HB|]. clear HB. globals s.
  destruct otex, A; evaluate; repeat split; reflexivity.
Qed.

Lemma ResetSV_reopens_slots_witness :
  g_outputTexture with_compositor = 4%N /\
  g_outputTexture
    (fst (SetOutputRenderTexture 9%N
            (ResetSV (fst (SetOutputRenderTexture 5%N with_compositor))))) = 9%N.
Proof.
  split; [reflexivity|].
  destruct (ResetSV_reopens_slots 5%N 9%N 8%N true with_compositor) as (_ & H & _);
    [discriminate | exact H].
Defined.

(** X18.  The photo path has no null test of its own: when [ResetSV]
    comes between the request and the tick, the tick still serves the
    request and hands [ci->TakePicture] the null texture. *)
Theorem photo_after_reset_gets_null_texture eventID encoderOk frameReady s :
  ci s <> nullptr -> g_pD3D11Device s <> nullptr ->
  let s1 := ResetSV (TakePicture s) in
  let s2 := OnRenderEvent eventID encoderOk frameReady s1 in
  filter is_TakePicture (calls_between s1 s2) = [ci_TakePicture nullptr] /\
  takePicture s2 = false.
Proof.
  intros Hn Hd. globals s. simpl in Hn, Hd.
  destruct comp as [|a]; [now elim Hn|]. destruct dev as [|b]; [now elim Hd|].
  clear Hn Hd.
  destruct vinit, rec, encoderOk, frameReady; unfold calls_between;
    lazy -[app skipn List.length filter is_TakePicture];
    calls_norm; repeat split; reflexivity.
Qed.

Lemma photo_after_reset_gets_null_texture_witness :
  ci with_compositor <> nullptr /\ g_pD3D11Device with_compositor <> nullptr /\
  g_outputTexture with_compositor = 4%N /\
  filter is_TakePicture
    (calls_between (ResetSV (TakePicture with_compositor))
       (OnRenderEvent 0 true false (ResetSV (TakePicture with_compositor))))
  = [ci_TakePicture nullptr].
Proof.
  split; [discriminate|]. split; [discriminate|]. split; [reflexivity|].
  destruct (photo_after_reset_gets_null_texture 0 true false with_compositor)
    as (H & _); [discriminate | discriminate | exact H].
Defined.

(** X19.  Losing and regaining the link.  Changing the address while
    connected calls nothing and leaves the connection as it is; when
    the next receive fails and the retry task's connect is accepted,
    the plugin is connected again, to the new address, with no retry
    task left over, and the cached pose and the outgoing record are
    what they were before the failure. *)
Theorem reconnect_after_failure addr nsPast delay s :
  connectedToServer s = true -> connectingToServer s = false ->
  let s0 := SetSpectatorViewIP addr s in
  exists s1 pos rot,
    GetPose nsPast None delay s0 = Done (s1, pos, rot) /\
    let s2 := ListenForServer_task true s1 in
    (connectedToServer s0 = true /\ calls_between s s0 = []) /\
    (connectedToServer s2 = true /\ connectingToServer s2 = false /\
     listenTasks s2 = listenTasks s) /\
    (svPose s2 = svPose s /\ sentData s2 = sentData s) /\
    calls_between s s2
    = [ tcp_SendData (sentData s); tcp_ReceiveData None; create_task;
        tcp_CreateClientListener addr true ].
Proof.
  intros Hc Hg. globals s. simpl in Hc, Hg. subst cted cting.
  do 3 eexists. split; [evaluate; reflexivity|].
  unfold calls_between; lazy -[app skipn List.length]; calls_norm.
  repeat split; reflexivity.
Qed.

Lemma reconnect_after_failure_witness :
  connectedToServer synced = true /\ connectingToServer synced = false /\
  exists s1 pos rot,
    GetPose 0 None 0 (SetSpectatorViewIP "10.0.0.2" synced) = Done (s1, pos, rot) /\
    connectedToServer (ListenForServer_task true s1) = true /\
    svPose (ListenForServer_task true s1) = sample_pose.
Proof.
  split; [reflexivity|]. split; [reflexivity|].
  destruct (reconnect_after_failure "10.0.0.2" 0 0 synced eq_refl eq_refl)
    as (s1 & pos & rot & HG & _ & (H1 & _) & (H2 & _) & _).
  exists s1, pos, rot. split; [exact HG|]. split; [exact H1|].
  rewrite H2. reflexivity.
Defined.

(** X5.  Recording starts only once the encoder is up.  With a
    session and a device but the encoder not yet initialised,
    [StartRecording] is ignored; after a render tick on which the
    encoder initialises it takes effect; from then on a tick asks for
    a video-frame encode, on the bound video texture, exactly when a
    composited frame is ready. *)
Theorem recording_starts_after_encoder eventID frameReady eventID' encoderOk' frameReady' s :
  ci s <> nullptr -> g_pD3D11Device s <> nullptr -> g_videoTexture s <> nullptr ->
  videoInitialized s = false ->
  StartRecording s = s /\
  let s1 := StartRecording (OnRenderEvent eventID true frameReady s) in
  let s2 := OnRenderEvent eventID' encoderOk' frameReady' s1 in
  isRecording s1 = true /\
  filter is_RecordFrameAsync (calls_between s1 s2)
  = if frameReady' then [ci_RecordFrameAsync (g_videoTexture s)] else [].
Proof.
  intros Hn Hd Hv Hi. globals s. simpl in Hn, Hd, Hv, Hi. subst vinit.
  destruct comp as [|a]; [now elim Hn|]. destruct dev as [|b]; [now elim Hd|].
  destruct vtex as [|c]; [now elim Hv|]. clear Hn Hd Hv.
  destruct pic, rec, frameReady, encoderOk', frameReady'; unfold calls_between;
    lazy -[app skipn List.length filter is_RecordFrameAsync];
    calls_norm; repeat split; reflexivity.
Qed.

Lemma recording_starts_after_encoder_witness :
  videoInitialized with_compositor = false /\
  g_videoTexture with_compositor = 5%N /\
  let s1 := StartRecording (OnRenderEvent 0 true false with_compositor) in
  isRecording s1 = true /\
  filter is_RecordFrameAsync (calls_between s1 (OnRenderEvent 0 true true s1))
  = [ci_RecordFrameAsync 5%N].
Proof.
  split; [reflexivity|]. split; [reflexivity|].
  destruct (recording_starts_after_encoder 0 false 0 true true with_compositor)
    as (_ & H1 & H2); try discriminate; try reflexivity.
  split; [exact H1 | exact H2].
Defined.
